(** * Lab-2.cpp: OpenGL 4.5 context bootstrap with a debug log

    A shallow embedding of [CS200_Lab01/source/Lab-2.cpp].  The program talks
    to three outside parties: the file system and the standard streams
    (through [std::ofstream], [std::cerr], [std::cout]), the windowing library
    GLFW, and the loader GLEW together with the GL driver.  Every answer those
    parties give is a field of the environment [Env]; every call the program
    makes is recorded, in order, in the world it threads through.  A function
    of the program is a computation [M A]: it takes a world and yields an
    outcome (a returned value, [std::exit], or an exhausted budget of loop
    iterations) and the world it leaves behind. *)

From Stdlib Require Import ZArith QArith List Bool Lia.
From Stdlib Require Ascii.
From stdpp Require Import base gmap strings pretty.
Import ListNotations.

#[local] Open Scope Z_scope.
#[local] Open Scope list_scope.

(** ** Constants of the headers

    [GL/glew.h], [GLFW/glfw3.h] and [<cstdlib>] belong to the libraries, not
    to the repository.  The macros the program names are given the values
    they have in GLFW 3, in GLEW and in the C libraries in use
    ([EXIT_FAILURE] is 1 there).  The properties below are stated with the
    names, not the numbers. *)

Definition GLFWwindow := Z.              (* a [GLFWwindow*]; 0 is NULL *)
Definition NULL : GLFWwindow := 0.

Definition GLboolean := Z.
Definition GL_TRUE : GLboolean := 1.
Definition GL_FALSE : GLboolean := 0.

Definition GLFW_TRUE : Z := 1.
Definition GLFW_RELEASE : Z := 0.
Definition GLFW_PRESS : Z := 1.
Definition GLFW_REPEAT : Z := 2.
Definition GLFW_KEY_ESCAPE : Z := 256.
Definition GLFW_MOUSE_BUTTON_LEFT : Z := 0.
Definition GLFW_MOUSE_BUTTON_RIGHT : Z := 1.
Definition GLFW_OPENGL_CORE_PROFILE : Z := 204801.   (* 0x00032001 *)
Definition GLFW_CURSOR : Z := 208897.                (* 0x00033001 *)
Definition GLFW_CURSOR_NORMAL : Z := 212993.         (* 0x00034001 *)
Definition GLEW_OK : Z := 0.
Definition EXIT_FAILURE : Z := 1.

(** The GL enumerants the program names. *)
Inductive GLenum :=
| GL_VENDOR | GL_RENDERER | GL_VERSION | GL_SHADING_LANGUAGE_VERSION
| GL_MAJOR_VERSION | GL_MINOR_VERSION
| GL_MAX_ELEMENTS_VERTICES | GL_MAX_ELEMENTS_INDICES
| GL_MAX_GEOMETRY_OUTPUT_VERTICES | GL_MAX_COMBINED_TEXTURE_IMAGE_UNITS
| GL_MAX_CUBE_MAP_TEXTURE_SIZE | GL_MAX_DRAW_BUFFERS
| GL_MAX_FRAGMENT_UNIFORM_COMPONENTS | GL_MAX_TEXTURE_IMAGE_UNITS
| GL_MAX_TEXTURE_SIZE | GL_MAX_VARYING_FLOATS | GL_MAX_VERTEX_ATTRIBS
| GL_MAX_VERTEX_TEXTURE_IMAGE_UNITS | GL_MAX_VERTEX_UNIFORM_COMPONENTS
| GL_MAX_VIEWPORT_DIMS | GL_STEREO
| GL_NUM_EXTENSIONS | GL_EXTENSIONS
| GL_COLOR_BUFFER_BIT.

(** The window hints [create_gl_context] sets. *)
Inductive GLFWhint :=
| GLFW_CONTEXT_VERSION_MAJOR | GLFW_CONTEXT_VERSION_MINOR
| GLFW_OPENGL_PROFILE | GLFW_OPENGL_FORWARD_COMPAT
| GLFW_DOUBLEBUFFER | GLFW_DEPTH_BITS
| GLFW_RED_BITS | GLFW_GREEN_BITS | GLFW_BLUE_BITS | GLFW_ALPHA_BITS.

(** The functions of the program that are handed to GLFW as callbacks. *)
Inductive callback :=
| ptr_glfw_error_cb | ptr_fbsize_cb | ptr_key_cb
| ptr_mousebutton_cb | ptr_mousepos_cb | ptr_mousescroll_cb.

(** An RGBA colour; the components the program uses are 0 and 1. *)
Definition color : Type := Q * Q * Q * Q.

(** ** Calls into GLFW, GLEW and GL, as the trace records them *)
Inductive call :=
| GlfwInit
| GlfwGetVersionString
| GlfwSetErrorCallback (cb : callback)
| GlfwWindowHint (hint : GLFWhint) (value : Z)
| GlfwCreateWindow (width height : Z) (title : string)
| GlfwMakeContextCurrent (pwin : GLFWwindow)
| GlfwSetFramebufferSizeCallback (pwin : GLFWwindow) (cb : callback)
| GlfwSetKeyCallback (pwin : GLFWwindow) (cb : callback)
| GlfwSetMouseButtonCallback (pwin : GLFWwindow) (cb : callback)
| GlfwSetCursorPosCallback (pwin : GLFWwindow) (cb : callback)
| GlfwSetScrollCallback (pwin : GLFWwindow) (cb : callback)
| GlfwSetInputMode (pwin : GLFWwindow) (mode value : Z)
| GlfwGetFramebufferSize (pwin : GLFWwindow)
| GlfwWindowShouldClose (pwin : GLFWwindow)
| GlfwSetWindowShouldClose (pwin : GLFWwindow) (value : Z)
| GlfwSwapBuffers (pwin : GLFWwindow)
| GlfwPollEvents
| GlfwDestroyWindow (pwin : GLFWwindow)
| GlfwTerminate
| GlewInit
| GlewGetErrorString (err : Z)
| GlewGetString
| GlGetString (name : GLenum)
| GlGetIntegerv (pname : GLenum)
| GlGetBooleanv (pname : GLenum)
| GlGetStringi (name : GLenum) (index : Z)
| GlViewport (x y width height : Z)
| GlClearColor (r g b a : Q)
| GlClear (mask : GLenum).

(** ** Input events GLFW hands over during [glfwPollEvents] *)
Inductive event :=
| EvKey (key scancode action mods : Z)
| EvMouseButton (button action mods : Z)
| EvCursorPos (xpos ypos : Q)
| EvScroll (xoffset yoffset : Q)
| EvFramebufferSize (width height : Z)
| EvClose                      (* close widget or Alt+F4: GLFW sets the flag *)
| EvError (code : Z) (description : string).

(** The slots of GLFW in which a callback can be installed. *)
Inductive slot :=
| ErrorSlot | FramebufferSizeSlot | KeySlot
| MouseButtonSlot | CursorPosSlot | ScrollSlot.

Definition slot_eqb (a b : slot) : bool :=
  match a, b with
  | ErrorSlot, ErrorSlot | FramebufferSizeSlot, FramebufferSizeSlot
  | KeySlot, KeySlot | MouseButtonSlot, MouseButtonSlot
  | CursorPosSlot, CursorPosSlot | ScrollSlot, ScrollSlot => true
  | _, _ => false
  end.

(** ** Operations on the log file and the streams *)
Inductive openmode := ModeOut | ModeApp.

Inductive fileop :=
| FOpen (name : string) (mode : openmode) (ok : bool)
| FWrite (name : string) (text : string)
| FClose (name : string).

(** A value [log_to_debug_file] can be given: string literals, [std::string]s
    and the C strings GL returns print as their characters, [int]s in
    decimal. *)
Inductive printable :=
| PStr (s : string)
| PInt (z : Z).

Definition show (v : printable) : string :=
  match v with
  | PStr s => s
  | PInt z => pretty z
  end.

Definition newline : Ascii.ascii := Ascii.ascii_of_nat 10.
Definition endl : string := String newline EmptyString.
Definition space : string := String (Ascii.ascii_of_nat 32) EmptyString.

(** Number of line terminators in a text. *)
Fixpoint count_newlines (s : string) : nat :=
  match s with
  | EmptyString => O
  | String c rest =>
      ((if Ascii.eqb c newline then 1 else 0) + count_newlines rest)%nat
  end.

(** ** The environment: what the outside answers *)
Record Env := {
  (* file system and build *)
  open_ok : nat -> bool;            (* does the n-th attempt to open succeed *)
  ctime_now : string;               (* [std::ctime] text, without its final newline *)
  build_date : string;              (* [__DATE__] *)
  build_time : string;              (* [__TIME__] *)
  DEBUG : bool;                     (* is [_DEBUG] defined *)
  show_double : Q -> string;        (* how the stream prints a [double] *)
  (* GLFW *)
  glfwInit_ok : bool;
  glfw_version_string : string;
  created_window : GLFWwindow;      (* result of [glfwCreateWindow] *)
  create_window_errors : list (Z * string);
  framebuffer_size : Z * Z;
  events : nat -> list event;       (* the batch the n-th poll hands over *)
  (* GLEW and GL *)
  glewInit_result : Z;
  glew_error_string : Z -> string;
  glew_version_string : string;
  GLEW_VERSION_4_5 : bool;
  gl_string : GLenum -> string;
  gl_integerv : GLenum -> nat -> Z; (* k-th integer a query writes *)
  gl_booleanv : GLenum -> bool;
  gl_stringi : GLenum -> Z -> string
}.

(** ** The world the program runs in *)

(** Windowing and GL side. *)
Record Device := {
  calls : list call;                (* every library call so far, in order *)
  should_close : bool;              (* the window's close flag *)
  polls : nat;                      (* number of polls so far *)
  handlers : list (slot * callback);(* installed callbacks, latest first *)
  clear_color : color;              (* GL's current clear colour *)
  viewport : Z * Z * Z * Z;
  cleared : list color              (* colours the colour buffer was cleared to *)
}.

(** Files and standard streams. *)
Record Streams := {
  fs : gmap string string;          (* file name to content *)
  fileops : list fileop;            (* every stream operation so far *)
  opens : nat;                      (* number of open attempts so far *)
  cerr : list string;               (* lines sent to [std::cerr] *)
  cout : list string                (* lines sent to [std::cout] *)
}.

Record World := { dev : Device; io : Streams }.

Definition on_dev (f : Device -> Device) (w : World) : World :=
  {| dev := f (dev w); io := io w |}.
Definition on_io (f : Streams -> Streams) (w : World) : World :=
  {| dev := dev w; io := f (io w) |}.

Definition add_call (c : call) : World -> World :=
  on_dev (fun d =>
    {| calls := calls d ++ [c]; should_close := should_close d;
       polls := polls d; handlers := handlers d;
       clear_color := clear_color d; viewport := viewport d;
       cleared := cleared d |}).
Definition set_should_close (b : bool) : World -> World :=
  on_dev (fun d =>
    {| calls := calls d; should_close := b;
       polls := polls d; handlers := handlers d;
       clear_color := clear_color d; viewport := viewport d;
       cleared := cleared d |}).
Definition count_poll : World -> World :=
  on_dev (fun d =>
    {| calls := calls d; should_close := should_close d;
       polls := S (polls d); handlers := handlers d;
       clear_color := clear_color d; viewport := viewport d;
       cleared := cleared d |}).
Definition install (s : slot) (cb : callback) : World -> World :=
  on_dev (fun d =>
    {| calls := calls d; should_close := should_close d;
       polls := polls d; handlers := (s, cb) :: handlers d;
       clear_color := clear_color d; viewport := viewport d;
       cleared := cleared d |}).
Definition set_clear_color (c : color) : World -> World :=
  on_dev (fun d =>
    {| calls := calls d; should_close := should_close d;
       polls := polls d; handlers := handlers d;
       clear_color := c; viewport := viewport d;
       cleared := cleared d |}).
Definition set_viewport (v : Z * Z * Z * Z) : World -> World :=
  on_dev (fun d =>
    {| calls := calls d; should_close := should_close d;
       polls := polls d; handlers := handlers d;
       clear_color := clear_color d; viewport := v;
       cleared := cleared d |}).
Definition clear_buffer : World -> World :=
  on_dev (fun d =>
    {| calls := calls d; should_close := should_close d;
       polls := polls d; handlers := handlers d;
       clear_color := clear_color d; viewport := viewport d;
       cleared := cleared d ++ [clear_color d] |}).

Definition add_fileop (o : fileop) : World -> World :=
  on_io (fun s =>
    {| fs := fs s; fileops := fileops s ++ [o]; opens := opens s;
       cerr := cerr s; cout := cout s |}).
Definition count_open : World -> World :=
  on_io (fun s =>
    {| fs := fs s; fileops := fileops s; opens := S (opens s);
       cerr := cerr s; cout := cout s |}).
Definition set_file (name content : string) : World -> World :=
  on_io (fun s =>
    {| fs := <[name := content]> (fs s); fileops := fileops s;
       opens := opens s; cerr := cerr s; cout := cout s |}).
Definition to_cerr (line : string) : World -> World :=
  on_io (fun s =>
    {| fs := fs s; fileops := fileops s; opens := opens s;
       cerr := cerr s ++ [line]; cout := cout s |}).
Definition to_cout (line : string) : World -> World :=
  on_io (fun s =>
    {| fs := fs s; fileops := fileops s; opens := opens s;
       cerr := cerr s; cout := cout s ++ [line] |}).

Definition file_content (name : string) (w : World) : string :=
  default EmptyString (fs (io w) !! name).

Fixpoint handler (s : slot) (hs : list (slot * callback)) : option callback :=
  match hs with
  | [] => None
  | (s', cb) :: rest => if slot_eqb s s' then Some cb else handler s rest
  end.

(** ** Computations *)
Inductive outcome (A : Type) :=
| Ret (a : A)              (* the function returned [a] *)
| Exit (status : Z)        (* [std::exit (status)] was called *)
| Hang.                    (* the budget of loop iterations ran out *)
Arguments Ret {A} a.
Arguments Exit {A} status.
Arguments Hang {A}.

Definition M (A : Type) : Type := World -> outcome A * World.

Definition ret {A} (a : A) : M A := fun w => (Ret a, w).
Definition bind {A B} (m : M A) (k : A -> M B) : M B := fun w =>
  match m w with
  | (Ret a, w') => k a w'
  | (Exit s, w') => (Exit s, w')
  | (Hang, w') => (Hang, w')
  end.
Definition std_exit {A} (status : Z) : M A := fun w => (Exit status, w).
Definition effect (f : World -> World) : M unit := fun w => (Ret tt, f w).
Definition emit (c : call) : M unit := effect (add_call c).
Definition run {A} (m : M A) (w : World) : World := snd (m w).

Notation "x <- c ;; k" := (bind c (fun x => k))
  (at level 62, c at next level, right associativity).
Notation "c ;;; k" := (bind c (fun _ => k))
  (at level 62, right associativity).

Fixpoint for_each {A} (l : list A) (body : A -> M unit) : M unit :=
  match l with
  | [] => ret tt
  | x :: rest => body x ;;; for_each rest body
  end.

(** [for (i = from; i < bound; ++i) body (i)], yielding the value [i] is left
    with. *)
Definition for_loop (from bound : nat) (body : nat -> M unit) : M nat :=
  for_each (seq from (bound - from)) body ;;;
  ret (Nat.max from bound).

(** ** The program *)

Definition g_logfilename : string := "gl-debug-log.txt".

Section Program.

Variable E : Env.

(** *** [std::ofstream], [std::cerr], [std::cout] *)

(** Constructing the stream: [ModeOut] alone truncates the file, [ModeApp]
    keeps what is there; both create a missing file.  A failed attempt leaves
    the file system as it was. *)
Definition ofstream_open (file_name : string) (mode : openmode) : M bool :=
  fun w =>
    let ok := open_ok E (opens (io w)) in
    let w1 := add_fileop (FOpen file_name mode ok) (count_open w) in
    let w2 :=
      if ok then
        match mode with
        | ModeOut => set_file file_name EmptyString w1
        | ModeApp => set_file file_name (file_content file_name w1) w1
        end
      else w1 in
    (Ret ok, w2).

(** [ofs << text] *)
Definition ofstream_write (file_name text : string) : M unit :=
  effect (fun w =>
    add_fileop (FWrite file_name text)
      (set_file file_name (file_content file_name w +:+ text) w)).

Definition ofstream_close (file_name : string) : M unit :=
  effect (add_fileop (FClose file_name)).

Definition open_error (file_name : string) : string :=
  "ERROR: could not open log file " +:+ file_name +:+ " for writing" +:+ endl.

(** Output under [#ifdef _DEBUG]. *)
Definition debug_print (text : string) : M unit :=
  if DEBUG E then effect (to_cout text) else ret tt.

(** *** [log_to_debug_file] *)
Definition log_to_debug_file (file_name : string) (args : list printable)
  : M bool :=
  ok <- ofstream_open file_name ModeApp ;;
  if negb ok then
    effect (to_cerr (open_error file_name)) ;;;
    ret false
  else
    for_each args (fun v =>
      ofstream_write file_name (show v) ;;;
      ofstream_write file_name space) ;;;
    ofstream_write file_name endl ;;;
    ofstream_close file_name ;;;
    ret true.

(** *** [create_log_file] *)
Definition create_log_file : M GLboolean :=
  ok <- ofstream_open g_logfilename ModeOut ;;
  if negb ok then
    effect (to_cerr (open_error g_logfilename)) ;;;
    ret GL_FALSE
  else
    ofstream_write g_logfilename "OpenGL Application Log File local time: " ;;;
    ofstream_write g_logfilename (ctime_now E +:+ endl) ;;;
    ofstream_write g_logfilename "Build version: " ;;;
    ofstream_write g_logfilename (build_date E) ;;;
    ofstream_write g_logfilename " " ;;;
    ofstream_write g_logfilename (build_time E) ;;;
    ofstream_write g_logfilename endl ;;;
    ofstream_write g_logfilename endl ;;;
    ofstream_close g_logfilename ;;;
    ret GL_TRUE.

(** *** GL and GLEW *)
Definition glViewport (x y width height : Z) : M unit :=
  effect (fun w =>
    set_viewport (x, y, width, height)
      (add_call (GlViewport x y width height) w)).

Definition glClearColor (r g b a : Q) : M unit :=
  effect (fun w => set_clear_color (r, g, b, a) (add_call (GlClearColor r g b a) w)).

Definition glClear (mask : GLenum) : M unit :=
  effect (fun w =>
    match mask with
    | GL_COLOR_BUFFER_BIT => clear_buffer (add_call (GlClear mask) w)
    | _ => add_call (GlClear mask) w
    end).

Definition glGetString (name : GLenum) : M string :=
  emit (GlGetString name) ;;; ret (gl_string E name).
Definition glGetIntegerv (pname : GLenum) : M (nat -> Z) :=
  emit (GlGetIntegerv pname) ;;; ret (gl_integerv E pname).
Definition glGetBooleanv (pname : GLenum) : M bool :=
  emit (GlGetBooleanv pname) ;;; ret (gl_booleanv E pname).
Definition glGetStringi (name : GLenum) (index : Z) : M string :=
  emit (GlGetStringi name index) ;;; ret (gl_stringi E name index).

Definition glewInit : M Z :=
  emit GlewInit ;;; ret (glewInit_result E).
Definition glewGetErrorString (err : Z) : M string :=
  emit (GlewGetErrorString err) ;;; ret (glew_error_string E err).
Definition glewGetString : M string :=
  emit GlewGetString ;;; ret (glew_version_string E).

(** *** GLFW, apart from event delivery *)
Definition glfwInit : M bool :=
  emit GlfwInit ;;; ret (glfwInit_ok E).
Definition glfwGetVersionString : M string :=
  emit GlfwGetVersionString ;;; ret (glfw_version_string E).
Definition glfwTerminate : M unit := emit GlfwTerminate.
Definition glfwDestroyWindow (pwin : GLFWwindow) : M unit :=
  emit (GlfwDestroyWindow pwin).
Definition glfwWindowHint (hint : GLFWhint) (value : Z) : M unit :=
  emit (GlfwWindowHint hint value).
Definition glfwMakeContextCurrent (pwin : GLFWwindow) : M unit :=
  emit (GlfwMakeContextCurrent pwin).
Definition glfwSetInputMode (pwin : GLFWwindow) (mode value : Z) : M unit :=
  emit (GlfwSetInputMode pwin mode value).
Definition glfwSwapBuffers (pwin : GLFWwindow) : M unit :=
  emit (GlfwSwapBuffers pwin).
Definition glfwGetFramebufferSize (pwin : GLFWwindow) : M (Z * Z) :=
  emit (GlfwGetFramebufferSize pwin) ;;; ret (framebuffer_size E).

Definition glfwSetErrorCallback (cb : callback) : M unit :=
  effect (fun w => install ErrorSlot cb (add_call (GlfwSetErrorCallback cb) w)).
Definition glfwSetFramebufferSizeCallback (pwin : GLFWwindow) (cb : callback)
  : M unit :=
  effect (fun w =>
    install FramebufferSizeSlot cb
      (add_call (GlfwSetFramebufferSizeCallback pwin cb) w)).
Definition glfwSetKeyCallback (pwin : GLFWwindow) (cb : callback) : M unit :=
  effect (fun w => install KeySlot cb (add_call (GlfwSetKeyCallback pwin cb) w)).
Definition glfwSetMouseButtonCallback (pwin : GLFWwindow) (cb : callback)
  : M unit :=
  effect (fun w =>
    install MouseButtonSlot cb
      (add_call (GlfwSetMouseButtonCallback pwin cb) w)).
Definition glfwSetCursorPosCallback (pwin : GLFWwindow) (cb : callback)
  : M unit :=
  effect (fun w =>
    install CursorPosSlot cb (add_call (GlfwSetCursorPosCallback pwin cb) w)).
Definition glfwSetScrollCallback (pwin : GLFWwindow) (cb : callback)
  : M unit :=
  effect (fun w =>
    install ScrollSlot cb (add_call (GlfwSetScrollCallback pwin cb) w)).

Definition glfwWindowShouldClose (pwin : GLFWwindow) : M bool :=
  fun w =>
    let w' := add_call (GlfwWindowShouldClose pwin) w in
    (Ret (should_close (dev w')), w').
Definition glfwSetWindowShouldClose (pwin : GLFWwindow) (value : Z) : M unit :=
  effect (fun w =>
    set_should_close (negb (value =? 0))
      (add_call (GlfwSetWindowShouldClose pwin value) w)).

(** *** I/O callbacks *)
Definition glfw_error_cb (error : Z) (description : string) : M unit :=
  log_to_debug_file g_logfilename
    [PStr "GLFW Error id: "; PInt error;
     PStr " | description: "; PStr description] ;;;
  ret tt.

Definition fbsize_cb (pwin : GLFWwindow) (width height : Z) : M unit :=
  glViewport 0 0 width height.

Definition key_cb (pwin : GLFWwindow) (key scancode action mod_ : Z) : M unit :=
  (if GLFW_PRESS =? action then
     debug_print ("Key pressed" +:+ endl)
   else if GLFW_REPEAT =? action then
     debug_print ("Key repeatedly pressed" +:+ endl)
   else if GLFW_RELEASE =? action then
     debug_print ("Key released" +:+ endl)
   else ret tt) ;;;
  if (GLFW_KEY_ESCAPE =? key) && (GLFW_PRESS =? action) then
    glfwSetWindowShouldClose pwin GLFW_TRUE
  else ret tt.

Definition mousebutton_cb (pwin : GLFWwindow) (button action mod_ : Z)
  : M unit :=
  (if button =? GLFW_MOUSE_BUTTON_LEFT then
     debug_print "Left mouse button "
   else if button =? GLFW_MOUSE_BUTTON_RIGHT then
     debug_print "Right mouse button "
   else ret tt) ;;;
  if action =? GLFW_PRESS then
    debug_print ("pressed!!!" +:+ endl)
  else if action =? GLFW_RELEASE then
    debug_print ("released!!!" +:+ endl)
  else ret tt.

Definition mousepos_cb (pwin : GLFWwindow) (xpos ypos : Q) : M unit :=
  debug_print ("Mouse cursor position: (" +:+ show_double E xpos +:+ ", "
               +:+ show_double E ypos +:+ ")" +:+ endl).

Definition mousescroll_cb (pwin : GLFWwindow) (xoffset yoffset : Q) : M unit :=
  debug_print ("Mouse scroll wheel offset: (" +:+ show_double E xoffset
               +:+ ", " +:+ show_double E yoffset +:+ ")" +:+ endl).

(** *** Event delivery by GLFW

    GLFW calls whatever sits in the slot of the event's kind, with the
    program's one window as [pwin].  A close request sets the close flag
    inside GLFW; the program installs no callback for it. *)
Definition deliver (ev : event) : M unit := fun w =>
  let pwin := created_window E in
  let installed s := handler s (handlers (dev w)) in
  match ev with
  | EvKey key scancode action mods =>
      match installed KeySlot with
      | Some ptr_key_cb => key_cb pwin key scancode action mods w
      | _ => ret tt w
      end
  | EvMouseButton button action mods =>
      match installed MouseButtonSlot with
      | Some ptr_mousebutton_cb => mousebutton_cb pwin button action mods w
      | _ => ret tt w
      end
  | EvCursorPos xpos ypos =>
      match installed CursorPosSlot with
      | Some ptr_mousepos_cb => mousepos_cb pwin xpos ypos w
      | Some ptr_mousescroll_cb => mousescroll_cb pwin xpos ypos w
      | _ => ret tt w
      end
  | EvScroll xoffset yoffset =>
      match installed ScrollSlot with
      | Some ptr_mousescroll_cb => mousescroll_cb pwin xoffset yoffset w
      | Some ptr_mousepos_cb => mousepos_cb pwin xoffset yoffset w
      | _ => ret tt w
      end
  | EvFramebufferSize width height =>
      match installed FramebufferSizeSlot with
      | Some ptr_fbsize_cb => fbsize_cb pwin width height w
      | _ => ret tt w
      end
  | EvClose => effect (set_should_close true) w
  | EvError code description =>
      match installed ErrorSlot with
      | Some ptr_glfw_error_cb => glfw_error_cb code description w
      | _ => ret tt w
      end
  end.

Definition glfwPollEvents : M unit := fun w =>
  for_each (events E (polls (dev w))) deliver
    (count_poll (add_call GlfwPollEvents w)).

(** A new window starts with its close flag down.  Errors GLFW meets while
    creating it go to the error callback. *)
Definition glfwCreateWindow (width height : Z) (title : string)
  : M GLFWwindow :=
  emit (GlfwCreateWindow width height title) ;;;
  for_each (create_window_errors E)
    (fun e => deliver (EvError (fst e) (snd e))) ;;;
  (if created_window E =? NULL then ret tt
   else effect (set_should_close false)) ;;;
  ret (created_window E).

(** *** [create_gl_context] *)

(** The width and the height are [GLuint] parameters, and [glfwCreateWindow]
    takes [int]s: an argument is first reduced to 32 bits without sign, and
    at the call read back as a 32-bit integer with sign, so that a value of
    2^31 or more arrives negative. *)
Definition GLuint_to_int (x : Z) : Z :=
  let u := x mod 4294967296 in
  if u <? 2147483648 then u else u - 4294967296.

Definition create_gl_context (fbwd fbht : Z) (wintitle : string)
  : M GLFWwindow :=
  ok <- glfwInit ;;
  (if negb ok then
     log_to_debug_file g_logfilename
       [PStr "ERROR: Initialization of GLFW has failed - program aborted"] ;;;
     std_exit EXIT_FAILURE
   else
     version <- glfwGetVersionString ;;
     log_to_debug_file g_logfilename
       [PStr "GLFW Version: "; PStr version] ;;;
     ret tt) ;;;
  glfwSetErrorCallback ptr_glfw_error_cb ;;;
  glfwWindowHint GLFW_CONTEXT_VERSION_MAJOR 4 ;;;
  glfwWindowHint GLFW_CONTEXT_VERSION_MINOR 5 ;;;
  glfwWindowHint GLFW_OPENGL_PROFILE GLFW_OPENGL_CORE_PROFILE ;;;
  glfwWindowHint GLFW_OPENGL_FORWARD_COMPAT GLFW_TRUE ;;;
  glfwWindowHint GLFW_DOUBLEBUFFER GLFW_TRUE ;;;
  glfwWindowHint GLFW_DEPTH_BITS 24 ;;;
  glfwWindowHint GLFW_RED_BITS 8 ;;;
  glfwWindowHint GLFW_GREEN_BITS 8 ;;;
  glfwWindowHint GLFW_BLUE_BITS 8 ;;;
  glfwWindowHint GLFW_ALPHA_BITS 8 ;;;
  pwin <- glfwCreateWindow (GLuint_to_int fbwd) (GLuint_to_int fbht) wintitle ;;
  (if pwin =? NULL then
     log_to_debug_file g_logfilename
       [PStr ("ERROR: GLFW is unable to create an OpenGL context." +:+ endl)] ;;;
     glfwTerminate ;;;
     std_exit EXIT_FAILURE
   else ret tt) ;;;
  glfwMakeContextCurrent pwin ;;;
  glfwSetFramebufferSizeCallback pwin ptr_fbsize_cb ;;;
  glfwSetKeyCallback pwin ptr_key_cb ;;;
  glfwSetMouseButtonCallback pwin ptr_mousebutton_cb ;;;
  glfwSetCursorPosCallback pwin ptr_mousepos_cb ;;;
  glfwSetScrollCallback pwin ptr_mousescroll_cb ;;;
  glfwSetInputMode pwin GLFW_CURSOR GLFW_CURSOR_NORMAL ;;;
  ret pwin.

(** *** [init_gl_loader] *)
Definition init_gl_loader : M GLboolean :=
  err <- glewInit ;;
  if negb (GLEW_OK =? err) then
    text <- glewGetErrorString err ;;
    log_to_debug_file g_logfilename
      [PStr "ERROR: Unable to initialize GLEW "; PStr text] ;;;
    ret GL_FALSE
  else if GLEW_VERSION_4_5 E then
    version <- glewGetString ;;
    log_to_debug_file g_logfilename [PStr "GLEW Version: "; PStr version] ;;;
    log_to_debug_file g_logfilename
      [PStr ("Graphics driver supports OpenGL version 4.5" +:+ endl)] ;;;
    ret GL_TRUE
  else
    log_to_debug_file g_logfilename
      [PStr ("ERROR: System doesn't support GL 4.5 API" +:+ endl)] ;;;
    ret GL_FALSE.

(** *** [query_gl_context] *)
Definition params : list (GLenum * string) :=
  [ (GL_VENDOR, "GL_VENDOR");
    (GL_RENDERER, "GL_RENDERER");
    (GL_VERSION, "GL_VERSION");
    (GL_SHADING_LANGUAGE_VERSION, "GL_SHADING_LANGUAGE_VERSION");
    (GL_MAJOR_VERSION, "GL_MAJOR_VERSION");
    (GL_MINOR_VERSION, "GL_MINOR_VERSION");
    (GL_MAX_ELEMENTS_VERTICES, "GL_MAX_ELEMENTS_VERTICES");
    (GL_MAX_ELEMENTS_INDICES, "GL_MAX_ELEMENTS_INDICES");
    (GL_MAX_GEOMETRY_OUTPUT_VERTICES, "GL_MAX_GEOMETRY_OUTPUT_VERTICES");
    (GL_MAX_COMBINED_TEXTURE_IMAGE_UNITS, "GL_MAX_COMBINED_TEXTURE_IMAGE_UNITS");
    (GL_MAX_CUBE_MAP_TEXTURE_SIZE, "GL_MAX_CUBE_MAP_TEXTURE_SIZE");
    (GL_MAX_DRAW_BUFFERS, "GL_MAX_DRAW_BUFFERS");
    (GL_MAX_FRAGMENT_UNIFORM_COMPONENTS, "GL_MAX_FRAGMENT_UNIFORM_COMPONENTS");
    (GL_MAX_TEXTURE_IMAGE_UNITS, "GL_MAX_TEXTURE_IMAGE_UNITS");
    (GL_MAX_TEXTURE_SIZE, "GL_MAX_TEXTURE_SIZE");
    (GL_MAX_VARYING_FLOATS, "GL_MAX_VARYING_FLOATS");
    (GL_MAX_VERTEX_ATTRIBS, "GL_MAX_VERTEX_ATTRIBS");
    (GL_MAX_VERTEX_TEXTURE_IMAGE_UNITS, "GL_MAX_VERTEX_TEXTURE_IMAGE_UNITS");
    (GL_MAX_VERTEX_UNIFORM_COMPONENTS, "GL_MAX_VERTEX_UNIFORM_COMPONENTS");
    (GL_MAX_VIEWPORT_DIMS, "GL_MAX_VIEWPORT_DIMS");
    (GL_STEREO, "GL_STEREO") ].

(** [params[i]]; the program only uses indices inside the table. *)
Definition param (i : nat) : GLenum * string :=
  nth i params (GL_VENDOR, EmptyString).

Definition query_gl_context : M unit :=
  log_to_debug_file g_logfilename
    [PStr "GL version information and context parameters:"] ;;;
  (* C-strings for 1st four parameters *)
  i <- for_loop 0 4 (fun i =>
         text <- glGetString (fst (param i)) ;;
         log_to_debug_file g_logfilename
           [PStr (snd (param i)); PStr text] ;;;
         ret tt) ;;
  (* one integer for next set of fifteen parameters *)
  for_loop i 19 (fun i =>
    val <- glGetIntegerv (fst (param i)) ;;
    log_to_debug_file g_logfilename [PStr (snd (param i)); PInt (val O)] ;;;
    ret tt) ;;;
  (* two integers for next parameter *)
  dim <- glGetIntegerv (fst (param 19)) ;;
  log_to_debug_file g_logfilename
    [PStr (snd (param 19)); PInt (dim 0%nat); PInt (dim 1%nat)] ;;;
  (* bool for next parameter *)
  flag <- glGetBooleanv (fst (param 20)) ;;
  log_to_debug_file g_logfilename
    [PStr (snd (param 20)); PInt (if flag then 1 else 0)] ;;;
  log_to_debug_file g_logfilename [PStr "-----------------------------"] ;;;
  (* enumerate extensions *)
  maxExtensions <- glGetIntegerv GL_NUM_EXTENSIONS ;;
  for_loop 0 (Z.to_nat (maxExtensions O)) (fun i =>
    text <- glGetStringi GL_EXTENSIONS (Z.of_nat i) ;;
    log_to_debug_file g_logfilename
      [PInt (Z.of_nat i + 1); PStr ": "; PStr text] ;;;
    ret tt) ;;;
  ret tt.

(** *** [init_gl_state], [draw], [update], [cleanup] *)
Definition init_gl_state (pwin : GLFWwindow) : M unit :=
  glClearColor 0 1 0 1 ;;;
  size <- glfwGetFramebufferSize pwin ;;
  fbsize_cb pwin (fst size) (snd size).

Definition draw (pWindow : GLFWwindow) : M unit :=
  glClear GL_COLOR_BUFFER_BIT ;;;
  glfwSwapBuffers pWindow.

Definition update (pwin : GLFWwindow) : M unit :=
  glfwPollEvents.

Definition cleanup (pwin : GLFWwindow) : M unit :=
  glfwTerminate.

(** *** [main]

    [frame_loop] is the [while] loop of [main]; its first argument bounds the
    number of iterations the model follows. *)
Fixpoint frame_loop (fuel : nat) (pWindow : GLFWwindow) : M unit :=
  match fuel with
  | O => fun w => (Hang, w)
  | S fuel' =>
      closing <- glfwWindowShouldClose pWindow ;;
      if negb closing then
        draw pWindow ;;;
        update pWindow ;;;
        frame_loop fuel' pWindow
      else ret tt
  end.

Definition main (fuel : nat) : M Z :=
  create_log_file ;;;
  pWindow <- create_gl_context 2400 1350
    ("init-1: OpenGL 4.5 - " +:+
     "create debug log file and clear colorbuffer with constant color") ;;
  loaded <- init_gl_loader ;;
  (if GL_FALSE =? loaded then
     glfwDestroyWindow pWindow ;;;
     glfwTerminate ;;;
     std_exit EXIT_FAILURE
   else ret tt) ;;;
  query_gl_context ;;;
  init_gl_state pWindow ;;;
  (* window's close flag is set by clicking close widget or Alt+F4 *)
  frame_loop fuel pWindow ;;;
  cleanup pWindow ;;;
  ret 0.

End Program.

(** ** A machine to run on

    The world before [main] starts, and an environment in which everything
    succeeds: the log file opens, GLFW and GLEW initialise, the driver offers
    two extensions, and the user presses ESC during the third poll. *)
Definition start : World :=
  {| dev := {| calls := []; should_close := false; polls := O;
               handlers := []; clear_color := (0, 0, 0, 0)%Q;
               viewport := (0, 0, 0, 0); cleared := [] |};
     io := {| fs := ∅; fileops := []; opens := O; cerr := []; cout := [] |} |}.

Definition desk : Env :=
  {| open_ok := fun _ => true;
     ctime_now := "Thu Jan  1 00:00:00 1970";
     build_date := "Jan  1 1970";
     build_time := "00:00:00";
     DEBUG := false;
     show_double := fun _ => "0";
     glfwInit_ok := true;
     glfw_version_string := "3.3.8 X11 GLX";
     created_window := 4096;
     create_window_errors := [];
     framebuffer_size := (2400, 1350);
     events := fun n =>
       match n with
       | 0%nat => [EvCursorPos 10 20]
       | 1%nat => [EvFramebufferSize 800 600; EvKey 65 38 GLFW_PRESS 0]
       | 2%nat => [EvKey GLFW_KEY_ESCAPE 9 GLFW_PRESS 0]
       | _ => []
       end;
     glewInit_result := GLEW_OK;
     glew_error_string := fun _ => "Unknown error";
     glew_version_string := "2.1.0";
     GLEW_VERSION_4_5 := true;
     gl_string := fun _ => "Mesa";
     gl_integerv := fun pname k =>
       match pname with
       | GL_NUM_EXTENSIONS => 2
       | GL_MAJOR_VERSION => 4
       | GL_MINOR_VERSION => 5
       | _ => 16
       end;
     gl_booleanv := fun _ => false;
     gl_stringi := fun _ i => if i =? 0 then "GL_ARB_a" else "GL_ARB_b" |}.

(** ** What one logging call does, said without the stream *)

(** The values of a call, each followed by one blank. *)
Fixpoint values_text (args : list printable) : string :=
  match args with
  | [] => EmptyString
  | v :: rest => show v +:+ space +:+ values_text rest
  end.

(** The text a call sends to the file. *)
Definition log_line (args : list printable) : string :=
  values_text args +:+ endl.

(** The insertions of a call, one pair per value. *)
Definition value_writes (name : string) (args : list printable) : list fileop :=
  flat_map (fun v => [FWrite name (show v); FWrite name space]) args.

Definition newlines_in (args : list printable) : nat :=
  list_sum (map (fun v => count_newlines (show v)) args).

(** The world after a call whose stream opened. *)
Definition logged (name : string) (args : list printable) : World -> World :=
  on_io (fun s =>
    {| fs := <[name := default EmptyString (fs s !! name) +:+ log_line args]> (fs s);
       fileops := fileops s ++ FOpen name ModeApp true
                    :: value_writes name args
                    ++ [FWrite name endl; FClose name];
       opens := S (opens s); cerr := cerr s; cout := cout s |}).

(** The world after a call whose stream did not open. *)
Definition log_failed (name : string) : World -> World :=
  on_io (fun s =>
    {| fs := fs s;
       fileops := fileops s ++ [FOpen name ModeApp false];
       opens := S (opens s);
       cerr := cerr s ++ [open_error name]; cout := cout s |}).

(** The text [create_log_file] leaves in a fresh log. *)
Definition log_header (E : Env) : string :=
  "OpenGL Application Log File local time: " +:+ ctime_now E +:+ endl
  +:+ "Build version: " +:+ build_date E +:+ " " +:+ build_time E
  +:+ endl +:+ endl.

Definition header_writes (E : Env) : list fileop :=
  map (FWrite g_logfilename)
    [ "OpenGL Application Log File local time: "; ctime_now E +:+ endl;
      "Build version: "; build_date E; " "; build_time E; endl; endl ].

(** The world [log_to_debug_file] leaves. *)
Definition log_result (E : Env) (name : string) (args : list printable)
  (w : World) : World :=
  if open_ok E (opens (io w)) then logged name args w else log_failed name w.

(** The worlds [create_log_file] can leave. *)
Definition log_created (E : Env) : World -> World :=
  on_io (fun s =>
    {| fs := <[g_logfilename := log_header E]> (fs s);
       fileops := fileops s ++ FOpen g_logfilename ModeOut true
                    :: header_writes E ++ [FClose g_logfilename];
       opens := S (opens s); cerr := cerr s; cout := cout s |}).

Definition log_not_created : World -> World :=
  on_io (fun s =>
    {| fs := fs s;
       fileops := fileops s ++ [FOpen g_logfilename ModeOut false];
       opens := S (opens s);
       cerr := cerr s ++ [open_error g_logfilename]; cout := cout s |}).

Definition create_result (E : Env) (w : World) : World :=
  if open_ok E (opens (io w)) then log_created E w else log_not_created w.

(** ** Relating the world before and after a computation *)

(** [always R m]: whatever the world, running [m] takes it to a world that
    [R] relates to it, whether [m] returns, exits or hangs. *)
Definition always {A} (R : World -> World -> Prop) (m : M A) : Prop :=
  forall w, R w (run m w).

(** [m] returns from every world. *)
Definition returns {A} (m : M A) : Prop :=
  forall w, exists a, fst (m w) = Ret a.

(** The calls made between two worlds all satisfy [P]. *)
Definition emits (P : call -> Prop) (w w' : World) : Prop :=
  exists new, calls (dev w') = calls (dev w) ++ new /\ Forall P new.

(** Only the files and streams changed. *)
Definition same_dev (w w' : World) : Prop := dev w' = dev w.

(** Every file holds what it held, possibly followed by more. *)
Definition log_grows (w w' : World) : Prop :=
  forall name, exists suffix,
    file_content name w' = file_content name w +:+ suffix.

Definition add_calls (l : list call) (w : World) : World :=
  fold_left (fun w c => add_call c w) l w.

(** The calls the program's callbacks make. *)
Definition is_callback_call (c : call) : Prop :=
  match c with
  | GlViewport _ _ _ _ | GlfwSetWindowShouldClose _ _ => True
  | _ => False
  end.

Definition is_clear_color (c : call) : bool :=
  match c with GlClearColor _ _ _ _ => true | _ => false end.

(** Between two worlds the clear colour was not set, and whatever clearing
    took place used it. *)
Definition steady (w w' : World) : Prop :=
  clear_color (dev w') = clear_color (dev w)
  /\ emits (fun c => is_clear_color c = false) w w'
  /\ exists k, cleared (dev w')
               = cleared (dev w) ++ repeat (clear_color (dev w)) k.

Definition green : color := (0, 1, 0, 1)%Q.

(** The files did not change. *)
Definition same_fs (w w' : World) : Prop := fs (io w') = fs (io w).

(** What a callback may do to the window and GL: make its own calls, and
    leave the clear colour, the record of clearings and the poll count
    alone. *)
Definition handled (w w' : World) : Prop :=
  emits is_callback_call w w'
  /\ clear_color (dev w') = clear_color (dev w)
  /\ cleared (dev w') = cleared (dev w)
  /\ polls (dev w') = polls (dev w).

(** One pass through the body of the [while] loop of [main], from the test
    of the close flag to the end of [update]. *)
Definition frame_step (E : Env) (p : GLFWwindow) (w : World) : World :=
  run (update E p) (run (draw p) (add_call (GlfwWindowShouldClose p) w)).

(** The world after [k] passes. *)
Definition frames (E : Env) (p : GLFWwindow) (k : nat) (w : World) : World :=
  Nat.iter k (frame_step E p) w.

(** The library calls of one pass, callbacks aside. *)
Definition frame_calls (p : GLFWwindow) : list call :=
  [GlfwWindowShouldClose p; GlClear GL_COLOR_BUFFER_BIT;
   GlfwSwapBuffers p; GlfwPollEvents].

(** ** The capability table, as the specification reads it *)

(** The four forms of query. *)
Inductive query_form :=
| StringQuery | IntegerQuery | DualIntegerQuery | BooleanQuery.

(** The form by position in the table: strings at 0 to 3, single integers at
    4 to 18, two integers at 19, a boolean at 20. *)
Definition form_at (i : nat) : query_form :=
  if (i <=? 3)%nat then StringQuery
  else if (i <=? 18)%nat then IntegerQuery
  else if (i =? 19)%nat then DualIntegerQuery
  else BooleanQuery.

(** The GL call of a form. *)
Definition query_call (form : query_form) (pname : GLenum) : call :=
  match form with
  | StringQuery => GlGetString pname
  | IntegerQuery | DualIntegerQuery => GlGetIntegerv pname
  | BooleanQuery => GlGetBooleanv pname
  end.

(** The values a form sends to the log after the label. *)
Definition query_values (E : Env) (form : query_form) (pname : GLenum)
  : list printable :=
  match form with
  | StringQuery => [PStr (gl_string E pname)]
  | IntegerQuery => [PInt (gl_integerv E pname 0)]
  | DualIntegerQuery => [PInt (gl_integerv E pname 0); PInt (gl_integerv E pname 1)]
  | BooleanQuery => [PInt (if gl_booleanv E pname then 1 else 0)]
  end.

(** Querying one table entry in a given form: the GL call, then one log
    call with the label and the values. *)
Definition query_row (E : Env) (form : query_form) (entry : GLenum * string)
  (w : World) : World :=
  log_result E g_logfilename
    (PStr (snd entry) :: query_values E form (fst entry))
    (add_call (query_call form (fst entry)) w).

(** Listing one extension. *)
Definition extension_row (E : Env) (w : World) (i : nat) : World :=
  log_result E g_logfilename
    [PInt (Z.of_nat i + 1); PStr ": ";
     PStr (gl_stringi E GL_EXTENSIONS (Z.of_nat i))]
    (add_call (GlGetStringi GL_EXTENSIONS (Z.of_nat i)) w).

Definition extension_count (E : Env) : nat :=
  Z.to_nat (gl_integerv E GL_NUM_EXTENSIONS 0).

(** The GL calls of [query_gl_context]. *)
Definition query_calls (E : Env) : list call :=
  imap (fun i entry => query_call (form_at i) (fst entry)) params
  ++ GlGetIntegerv GL_NUM_EXTENSIONS
  :: map (fun i => GlGetStringi GL_EXTENSIONS (Z.of_nat i))
       (seq 0 (extension_count E)).

(** ** The calls of the bootstrap *)

(** The library calls of [create_gl_context] when GLFW initialises and the
    window [p] is created. *)
Definition context_calls (fbwd fbht : Z) (title : string) (p : GLFWwindow)
  : list call :=
  [ GlfwInit; GlfwGetVersionString; GlfwSetErrorCallback ptr_glfw_error_cb;
    GlfwWindowHint GLFW_CONTEXT_VERSION_MAJOR 4;
    GlfwWindowHint GLFW_CONTEXT_VERSION_MINOR 5;
    GlfwWindowHint GLFW_OPENGL_PROFILE GLFW_OPENGL_CORE_PROFILE;
    GlfwWindowHint GLFW_OPENGL_FORWARD_COMPAT GLFW_TRUE;
    GlfwWindowHint GLFW_DOUBLEBUFFER GLFW_TRUE;
    GlfwWindowHint GLFW_DEPTH_BITS 24;
    GlfwWindowHint GLFW_RED_BITS 8;
    GlfwWindowHint GLFW_GREEN_BITS 8;
    GlfwWindowHint GLFW_BLUE_BITS 8;
    GlfwWindowHint GLFW_ALPHA_BITS 8;
    GlfwCreateWindow (GLuint_to_int fbwd) (GLuint_to_int fbht) title;
    GlfwMakeContextCurrent p;
    GlfwSetFramebufferSizeCallback p ptr_fbsize_cb;
    GlfwSetKeyCallback p ptr_key_cb;
    GlfwSetMouseButtonCallback p ptr_mousebutton_cb;
    GlfwSetCursorPosCallback p ptr_mousepos_cb;
    GlfwSetScrollCallback p ptr_mousescroll_cb;
    GlfwSetInputMode p GLFW_CURSOR GLFW_CURSOR_NORMAL ].

(** Its calls up to and including the attempt to create the window. *)
Definition window_attempt_calls (fbwd fbht : Z) (title : string) : list call :=
  firstn 14 (context_calls fbwd fbht title NULL).

(** The callbacks in place when it returns, latest first. *)
Definition context_handlers : list (slot * callback) :=
  [ (ScrollSlot, ptr_mousescroll_cb); (CursorPosSlot, ptr_mousepos_cb);
    (MouseButtonSlot, ptr_mousebutton_cb); (KeySlot, ptr_key_cb);
    (FramebufferSizeSlot, ptr_fbsize_cb); (ErrorSlot, ptr_glfw_error_cb) ].

(** The world while a stream on [name] is open: the attempt counted, the
    file holding [content], the operations [ops] recorded. *)
Definition stream_at (name content : string) (ops : list fileop)
  : World -> World :=
  on_io (fun s =>
    {| fs := <[name := content]> (fs s); fileops := fileops s ++ ops;
       opens := S (opens s); cerr := cerr s; cout := cout s |}).

(** The title [main] gives its window. *)
Definition main_title : string :=
  "init-1: OpenGL 4.5 - " +:+
  "create debug log file and clear colorbuffer with constant color".

(** Does the bootstrap go through: GLFW initialises, the window is created,
    GLEW initialises, and the driver supports GL 4.5. *)
Definition init_succeeds (E : Env) : bool :=
  glfwInit_ok E && negb (created_window E =? NULL)
  && (GLEW_OK =? glewInit_result E) && GLEW_VERSION_4_5 E.

(** The library calls of [main] up to the end of [query_gl_context], and
    those of [init_gl_state], when the bootstrap goes through. *)
Definition boot_calls (E : Env) : list call :=
  context_calls 2400 1350 main_title (created_window E)
  ++ [GlewInit; GlewGetString]
  ++ query_calls E.

Definition state_calls (E : Env) : list call :=
  [ GlClearColor 0 1 0 1; GlfwGetFramebufferSize (created_window E);
    GlViewport 0 0 (fst (framebuffer_size E)) (snd (framebuffer_size E)) ].

(** The ways the bootstrap can fail, in the order the program meets them. *)
Inductive init_failure :=
| GlfwInitFailed | WindowFailed | GlewInitFailed | NoGL45.

Definition first_failure (E : Env) : option init_failure :=
  if negb (glfwInit_ok E) then Some GlfwInitFailed
  else if created_window E =? NULL then Some WindowFailed
  else if negb (GLEW_OK =? glewInit_result E) then Some GlewInitFailed
  else if negb (GLEW_VERSION_4_5 E) then Some NoGL45
  else None.

(** What the program hands to [log_to_debug_file] on a failure. *)
Definition failure_message (E : Env) (f : init_failure) : list printable :=
  match f with
  | GlfwInitFailed =>
      [PStr "ERROR: Initialization of GLFW has failed - program aborted"]
  | WindowFailed =>
      [PStr ("ERROR: GLFW is unable to create an OpenGL context." +:+ endl)]
  | GlewInitFailed =>
      [PStr "ERROR: Unable to initialize GLEW ";
       PStr (glew_error_string E (glewInit_result E))]
  | NoGL45 =>
      [PStr ("ERROR: System doesn't support GL 4.5 API" +:+ endl)]
  end.

(** The library calls made before that log call, and after it. *)
Definition calls_before_failure (E : Env) (f : init_failure) : list call :=
  match f with
  | GlfwInitFailed => [GlfwInit]
  | WindowFailed => window_attempt_calls 2400 1350 main_title
  | GlewInitFailed =>
      context_calls 2400 1350 main_title (created_window E)
      ++ [GlewInit; GlewGetErrorString (glewInit_result E)]
  | NoGL45 =>
      context_calls 2400 1350 main_title (created_window E) ++ [GlewInit]
  end.

Definition calls_after_failure (E : Env) (f : init_failure) : list call :=
  match f with
  | GlfwInitFailed => []
  | WindowFailed => [GlfwTerminate]
  | GlewInitFailed | NoGL45 =>
      [GlfwDestroyWindow (created_window E); GlfwTerminate]
  end.

(** The calls of the frame loop. *)
Definition is_frame_call (c : call) : bool :=
  match c with
  | GlfwWindowShouldClose _ | GlClear _ | GlfwSwapBuffers _ | GlfwPollEvents
      => true
  | _ => false
  end.

(** The calls that start GLFW, create the window, or start GLEW. *)
Definition is_glfw_init (c : call) : bool :=
  match c with GlfwInit => true | _ => false end.
Definition is_create_window (c : call) : bool :=
  match c with GlfwCreateWindow _ _ _ => true | _ => false end.
Definition is_glew_init (c : call) : bool :=
  match c with GlewInit => true | _ => false end.

Definition count_calls (f : call -> bool) (l : list call) : nat :=
  length (List.filter f l).

(** The calls [draw] and [update] make themselves, once each in a pass of
    the loop: the clearing, the swap and the poll. *)
Definition is_clear (c : call) : bool :=
  match c with GlClear _ => true | _ => false end.
Definition is_swap (c : call) : bool :=
  match c with GlfwSwapBuffers _ => true | _ => false end.
Definition is_poll (c : call) : bool :=
  match c with GlfwPollEvents => true | _ => false end.

(** ** The order of the bootstrap *)

(** The stages of the bootstrap. *)
Inductive phase :=
| LibraryInit | WindowCreation | CallbackRegistration | LoaderInit
| CapabilityQuery.

Definition phase_eqb (a b : phase) : bool :=
  match a, b with
  | LibraryInit, LibraryInit | WindowCreation, WindowCreation
  | CallbackRegistration, CallbackRegistration | LoaderInit, LoaderInit
  | CapabilityQuery, CapabilityQuery => true
  | _, _ => false
  end.

(** The stage a library call belongs to, if any.  The registration of the
    error callback is not a registration for input events and has no
    stage. *)
Definition phase_of (c : call) : option phase :=
  match c with
  | GlfwInit => Some LibraryInit
  | GlfwCreateWindow _ _ _ => Some WindowCreation
  | GlfwSetFramebufferSizeCallback _ _ | GlfwSetKeyCallback _ _
  | GlfwSetMouseButtonCallback _ _ | GlfwSetCursorPosCallback _ _
  | GlfwSetScrollCallback _ _ => Some CallbackRegistration
  | GlewInit => Some LoaderInit
  | GlGetString _ | GlGetIntegerv _ | GlGetBooleanv _ | GlGetStringi _ _
      => Some CapabilityQuery
  | _ => None
  end.

(** Drop repetitions of a stage next to itself. *)
Fixpoint squash (l : list phase) : list phase :=
  match l with
  | [] => []
  | x :: rest =>
      match squash rest with
      | [] => [x]
      | y :: tail => if phase_eqb x y then y :: tail else x :: y :: tail
      end
  end.

(** The stages a trace goes through, in order. *)
Definition phases (trace : list call) : list phase :=
  squash (omap phase_of trace).

(** The order of stages as the specification has it. *)
Definition specified_order : list phase :=
  [LibraryInit; WindowCreation; LoaderInit; CapabilityQuery;
   CallbackRegistration].

(** The order of stages in the code. *)
Definition coded_order : list phase :=
  [LibraryInit; WindowCreation; CallbackRegistration; LoaderInit;
   CapabilityQuery].

(** What is left of [main] once the loop is over. *)
Definition finish (r : outcome unit * World) : outcome Z * World :=
  match r with
  | (Ret _, w) => (Ret 0, add_call GlfwTerminate w)
  | (Exit s, w) => (Exit s, w)
  | (Hang, w) => (Hang, w)
  end.

(** The machine of [desk] with a driver that stops short of GL 4.5. *)
Definition old_driver : Env :=
  {| open_ok := open_ok desk;
     ctime_now := ctime_now desk;
     build_date := build_date desk;
     build_time := build_time desk;
     DEBUG := DEBUG desk;
     show_double := show_double desk;
     glfwInit_ok := glfwInit_ok desk;
     glfw_version_string := glfw_version_string desk;
     created_window := created_window desk;
     create_window_errors := create_window_errors desk;
     framebuffer_size := framebuffer_size desk;
     events := events desk;
     glewInit_result := glewInit_result desk;
     glew_error_string := glew_error_string desk;
     glew_version_string := glew_version_string desk;
     GLEW_VERSION_4_5 := false;
     gl_string := gl_string desk;
     gl_integerv := gl_integerv desk;
     gl_booleanv := gl_booleanv desk;
     gl_stringi := gl_stringi desk |}.

(** The world of [start] once the window of [desk] stands. *)
Definition ready : World :=
  run (create_gl_context desk 2400 1350 main_title) start.

(** ** Events, wiring and streams: notions for the whole run *)

(** Does an event ask for the window to close: a press of ESC, or a close
    request. *)
Definition closing (ev : event) : bool :=
  match ev with
  | EvKey key _ action _ =>
      (GLFW_KEY_ESCAPE =? key) && (GLFW_PRESS =? action)
  | EvClose => true
  | _ => false
  end.

(** The size carried by the last resize of a batch, if it has one. *)
Fixpoint last_resize (evs : list event) : option (Z * Z) :=
  match evs with
  | [] => None
  | ev :: rest =>
      match last_resize rest with
      | Some size => Some size
      | None =>
          match ev with
          | EvFramebufferSize width height => Some (width, height)
          | _ => None
          end
      end
  end.

(** Every slot holds the callback the program wrote for it. *)
Definition wired (w : World) : Prop :=
  handler ErrorSlot (handlers (dev w)) = Some ptr_glfw_error_cb
  /\ handler FramebufferSizeSlot (handlers (dev w)) = Some ptr_fbsize_cb
  /\ handler KeySlot (handlers (dev w)) = Some ptr_key_cb
  /\ handler MouseButtonSlot (handlers (dev w)) = Some ptr_mousebutton_cb
  /\ handler CursorPosSlot (handlers (dev w)) = Some ptr_mousepos_cb
  /\ handler ScrollSlot (handlers (dev w)) = Some ptr_mousescroll_cb.

(** Is a closing event among the batches of polls [from], ..., [from + n - 1]. *)
Definition closing_within (E : Env) (from n : nat) : bool :=
  existsb (fun i => existsb closing (events E (from + i))) (seq 0 n).

(** The files and streams did not change. *)
Definition same_io (w w' : World) : Prop := io w' = io w.

Definition is_opened (o : fileop) : bool :=
  match o with FOpen _ _ true => true | _ => false end.
Definition is_failed_open (o : fileop) : bool :=
  match o with FOpen _ _ false => true | _ => false end.
Definition is_close (o : fileop) : bool :=
  match o with FClose _ => true | _ => false end.
Definition count_ops (f : fileop -> bool) (l : list fileop) : nat :=
  length (List.filter f l).

(** What the program does to files and streams between two worlds: every
    stream it opened it closed; [std::cerr] got the open error once per
    failed attempt and nothing else; no file but the log changed; and
    without [_DEBUG] nothing went to [std::cout]. *)
Definition tidy (E : Env) (w w' : World) : Prop :=
  exists ops,
    fileops (io w') = fileops (io w) ++ ops
    /\ count_ops is_opened ops = count_ops is_close ops
    /\ cerr (io w')
       = cerr (io w)
         ++ repeat (open_error g_logfilename) (count_ops is_failed_open ops)
    /\ delete g_logfilename (fs (io w')) = delete g_logfilename (fs (io w))
    /\ (DEBUG E = false -> cout (io w') = cout (io w)).

(** What the error callback hands to the log for one GLFW error. *)
Definition error_report (e : Z * string) : list printable :=
  [PStr "GLFW Error id: "; PInt (fst e);
   PStr " | description: "; PStr (snd e)].

(** The machine of [desk] with a driver that reports a negative number of
    extensions. *)
Definition no_extensions : Env :=
  {| open_ok := open_ok desk;
     ctime_now := ctime_now desk;
     build_date := build_date desk;
     build_time := build_time desk;
     DEBUG := DEBUG desk;
     show_double := show_double desk;
     glfwInit_ok := glfwInit_ok desk;
     glfw_version_string := glfw_version_string desk;
     created_window := created_window desk;
     create_window_errors := create_window_errors desk;
     framebuffer_size := framebuffer_size desk;
     events := events desk;
     glewInit_result := glewInit_result desk;
     glew_error_string := glew_error_string desk;
     glew_version_string := glew_version_string desk;
     GLEW_VERSION_4_5 := GLEW_VERSION_4_5 desk;
     gl_string := gl_string desk;
     gl_integerv := fun pname k =>
       match pname with
       | GL_NUM_EXTENSIONS => -1
       | _ => gl_integerv desk pname k
       end;
     gl_booleanv := gl_booleanv desk;
     gl_stringi := gl_stringi desk |}.

(** The machine of [desk] with a driver that offers no GL 4.5 context: GLFW
    reports two errors to the error callback while it tries to create the
    window, and returns [NULL]. *)
Definition no_window : Env :=
  {| open_ok := open_ok desk;
     ctime_now := ctime_now desk;
     build_date := build_date desk;
     build_time := build_time desk;
     DEBUG := DEBUG desk;
     show_double := show_double desk;
     glfwInit_ok := glfwInit_ok desk;
     glfw_version_string := glfw_version_string desk;
     created_window := NULL;
     create_window_errors :=
       [ (65543, "GLX: Failed to create context: GLXBadFBConfig");
         (65543, "Requested OpenGL version 4.5, got version 3.3") ];
     framebuffer_size := framebuffer_size desk;
     events := events desk;
     glewInit_result := glewInit_result desk;
     glew_error_string := glew_error_string desk;
     glew_version_string := glew_version_string desk;
     GLEW_VERSION_4_5 := GLEW_VERSION_4_5 desk;
     gl_string := gl_string desk;
     gl_integerv := gl_integerv desk;
     gl_booleanv := gl_booleanv desk;
     gl_stringi := gl_stringi desk |}.

(** A callback that at most writes to [std::cout], and only under
    [_DEBUG]: it returns, and the window, GL, the files, the stream
    operations and [std::cerr] are as they were. *)
Definition inert (E : Env) (w : World) (r : outcome unit * World) : Prop :=
  fst r = Ret tt
  /\ dev (snd r) = dev w
  /\ (fs (io (snd r)), fileops (io (snd r)), opens (io (snd r)),
      cerr (io (snd r)))
     = (fs (io w), fileops (io w), opens (io w), cerr (io w))
  /\ (if DEBUG E then True else cout (io (snd r)) = cout (io w)).

(** * Proofs *)

(** ** Strings *)

Lemma append_cons (c : Ascii.ascii) (s t : string) :
  String c s +:+ t = String c (s +:+ t).
Proof. reflexivity. Qed.

Lemma append_nil_r (s : string) : s +:+ EmptyString = s.
Proof.
  induction s as [|c s IH]; [reflexivity|].
  now rewrite append_cons, IH.
Qed.

Lemma append_assoc (a b c : string) : (a +:+ b) +:+ c = a +:+ (b +:+ c).
Proof.
  induction a as [|x a IH]; [reflexivity|].
  now rewrite !append_cons, IH.
Qed.

Lemma count_newlines_append (a b : string) :
  count_newlines (a +:+ b) = (count_newlines a + count_newlines b)%nat.
Proof.
  induction a as [|x a IH]; [reflexivity|].
  rewrite append_cons. simpl. rewrite IH. lia.
Qed.

Lemma count_newlines_values (args : list printable) :
  count_newlines (values_text args) = newlines_in args.
Proof.
  unfold newlines_in.
  induction args as [|v rest IH]; simpl; [reflexivity|].
  rewrite !count_newlines_append, IH. simpl. lia.
Qed.

Lemma count_newlines_log_line (args : list printable) :
  count_newlines (log_line args) = S (newlines_in args).
Proof.
  unfold log_line.
  rewrite count_newlines_append, count_newlines_values. simpl. lia.
Qed.

(** ** Running computations *)

Lemma bind_unfold {A B} (m : M A) (k : A -> M B) (w : World) :
  bind m k w =
  match m w with
  | (Ret a, w') => k a w'
  | (Exit s, w') => (Exit s, w')
  | (Hang, w') => (Hang, w')
  end.
Proof. reflexivity. Qed.

Lemma bind_returns {A B} (m : M A) (k : A -> M B) (w w' : World) (a : A) :
  m w = (Ret a, w') -> bind m k w = k a w'.
Proof. intros H. unfold bind. now rewrite H. Qed.

Create HintDb world.

#[local] Hint Unfold ret effect emit std_exit on_io on_dev file_content
  add_call set_should_close count_poll install set_clear_color set_viewport
  clear_buffer add_fileop count_open set_file to_cerr to_cout : world.

(** Lay a world open: unfold the updates and compute the projections. *)
Ltac open_world := autounfold with world; cbn.

Section Logging.

Variable E : Env.

(** The insertions of [log_to_debug_file], one value after the other, on a
    file that exists. *)
Lemma for_each_value_writes (name : string) (args : list printable) :
  forall w content,
    fs (io w) !! name = Some content ->
    for_each args (fun v =>
      ofstream_write name (show v) ;;; ofstream_write name space) w
    = (Ret tt,
       on_io (fun s =>
         {| fs := <[name := content +:+ values_text args]> (fs s);
            fileops := fileops s ++ value_writes name args;
            opens := opens s; cerr := cerr s; cout := cout s |}) w).
Proof.
  induction args as [|v rest IH]; intros [d [f ops n ce co]] content Hc;
    simpl in Hc.
  - open_world.
    rewrite append_nil_r, app_nil_r, insert_id by assumption.
    reflexivity.
  - cbn [for_each]. rewrite bind_unfold. unfold ofstream_write.
    open_world. rewrite Hc; cbn. rewrite lookup_insert_eq; cbn.
    erewrite IH by (cbn; apply lookup_insert_eq).
    open_world.
    rewrite !insert_insert_eq, <- !app_assoc, !append_assoc.
    reflexivity.
Qed.

Lemma log_to_debug_file_eq (name : string) (args : list printable) (w : World) :
  log_to_debug_file E name args w
  = (Ret (open_ok E (opens (io w))), log_result E name args w).
Proof.
  unfold log_to_debug_file, log_result.
  rewrite bind_unfold. unfold ofstream_open.
  destruct w as [d [f ops n ce co]]; cbn.
  destruct (open_ok E n); cbn; [|reflexivity].
  rewrite bind_unfold.
  erewrite for_each_value_writes by (open_world; apply lookup_insert_eq).
  unfold ofstream_write, ofstream_close, logged, log_line.
  open_world. rewrite lookup_insert_eq; cbn.
  rewrite !insert_insert_eq, <- !app_assoc, !append_assoc.
  reflexivity.
Qed.

Lemma ofstream_write_at (name content text : string) (ops : list fileop)
  (w : World) :
  ofstream_write name text (stream_at name content ops w)
  = (Ret tt, stream_at name (content +:+ text) (ops ++ [FWrite name text]) w).
Proof.
  destruct w as [d [f o n ce co]].
  unfold ofstream_write, stream_at. open_world.
  rewrite lookup_insert_eq, insert_insert_eq, <- app_assoc.
  reflexivity.
Qed.

Lemma create_log_file_eq (w : World) :
  create_log_file E w
  = (Ret (if open_ok E (opens (io w)) then GL_TRUE else GL_FALSE),
     create_result E w).
Proof.
  unfold create_log_file, create_result, log_created, log_not_created,
    log_header, header_writes, open_error.
  generalize g_logfilename; intros name.
  rewrite bind_unfold. unfold ofstream_open.
  destruct (open_ok E (opens (io w))); cbv iota beta zeta delta [negb];
    [|reflexivity].
  change (set_file name EmptyString
            (add_fileop (FOpen name ModeOut true) (count_open w)))
    with (stream_at name EmptyString [FOpen name ModeOut true] w).
  do 8 (rewrite bind_unfold, ofstream_write_at).
  rewrite bind_unfold. unfold ofstream_close, effect, ret.
  destruct w as [d [f o n ce co]].
  unfold stream_at. open_world.
  rewrite <- !app_assoc, !append_assoc. reflexivity.
Qed.

Lemma dev_log_result (name : string) (args : list printable) (w : World) :
  dev (log_result E name args w) = dev w.
Proof. unfold log_result. now destruct (open_ok E _). Qed.

Lemma dev_create_result (w : World) : dev (create_result E w) = dev w.
Proof. unfold create_result. now destruct (open_ok E _). Qed.

End Logging.

(** ** The logging helper and the log bootstrap *)

(** C3, as the code has it.  [log_to_debug_file] returns [true] exactly when
    the stream opened, and then the file holds what it held, followed by each
    value with one blank after it and one line end; that text has one line
    end more than the values together, so it is a single line exactly when no
    value carries a line end.  When the stream did not open the file system is
    untouched, one message goes to [std::cerr], and the function returns
    [false] to its caller.  The windowing side of the world is never
    touched. *)
Theorem log_to_debug_file_outcome (E : Env) (file_name : string)
  (args : list printable) (w : World) :
  let r := log_to_debug_file E file_name args w in
  (if open_ok E (opens (io w)) then
     fst r = Ret true
     /\ fs (io (snd r))
        = <[file_name := file_content file_name w
                         +:+ values_text args +:+ endl]> (fs (io w))
     /\ cerr (io (snd r)) = cerr (io w)
   else
     fst r = Ret false
     /\ fs (io (snd r)) = fs (io w)
     /\ cerr (io (snd r)) = cerr (io w) ++ [open_error file_name])
  /\ count_newlines (values_text args +:+ endl) = S (newlines_in args)
  /\ dev (snd r) = dev w.
Proof.
  cbv zeta. rewrite log_to_debug_file_eq. cbn [fst snd].
  split; [|split].
  - unfold log_result.
    destruct (open_ok E (opens (io w))); repeat split; reflexivity.
  - apply count_newlines_log_line.
  - apply dev_log_result.
Qed.

(** C3 as written fails: a value that carries a line end, as the program's
    own message does, comes out as two lines. *)
Lemma log_to_debug_file_value_with_newline :
  let r := log_to_debug_file desk g_logfilename
             [PStr ("Graphics driver supports OpenGL version 4.5" +:+ endl)]
             start in
  fst r = Ret true
  /\ fs (io (snd r)) !! g_logfilename
     = Some ("Graphics driver supports OpenGL version 4.5"
             +:+ endl +:+ " " +:+ endl)
  /\ count_newlines (file_content g_logfilename (snd r)) <> 1%nat.
Proof. vm_compute. repeat split; discriminate. Qed.

(** C6.  [create_log_file] opens the log with [std::ofstream::out], which
    empties it; when the stream opened, the file holds the time stamp line,
    the build stamp line and an empty line, whatever it held before, the
    stream is closed, and the result is [GL_TRUE].  When it did not open,
    nothing is written, one message goes to [std::cerr], and the result is
    [GL_FALSE]. *)
Theorem create_log_file_outcome (E : Env) (w : World) :
  let r := create_log_file E w in
  (if open_ok E (opens (io w)) then
     fst r = Ret GL_TRUE
     /\ fs (io (snd r)) = <[g_logfilename := log_header E]> (fs (io w))
     /\ fileops (io (snd r))
        = fileops (io w) ++ FOpen g_logfilename ModeOut true
            :: header_writes E ++ [FClose g_logfilename]
     /\ cerr (io (snd r)) = cerr (io w)
   else
     fst r = Ret GL_FALSE
     /\ fs (io (snd r)) = fs (io w)
     /\ fileops (io (snd r))
        = fileops (io w) ++ [FOpen g_logfilename ModeOut false]
     /\ cerr (io (snd r)) = cerr (io w) ++ [open_error g_logfilename])
  /\ dev (snd r) = dev w.
Proof.
  cbv zeta. rewrite create_log_file_eq. cbn [fst snd].
  split; [|apply dev_create_result].
  unfold create_result.
  destruct (open_ok E (opens (io w))); repeat split; reflexivity.
Qed.

(** ** Composing computations *)

Lemma run_bind {A B} (m : M A) (k : A -> M B) (w : World) :
  run (bind m k) w =
  match fst (m w) with
  | Ret a => run (k a) (run m w)
  | _ => run m w
  end.
Proof. unfold run, bind. now destruct (m w) as [[a|s|] w']. Qed.

Lemma returns_eq {A} (m : M A) (w : World) :
  returns m -> exists a, m w = (Ret a, run m w).
Proof.
  intros H. destruct (H w) as [a Ha]. exists a.
  unfold run. destruct (m w); simpl in *. now subst.
Qed.

Lemma always_bind {A B} (R : World -> World -> Prop) `{!PreOrder R}
  (m : M A) (k : A -> M B) :
  always R m -> (forall a, always R (k a)) -> always R (bind m k).
Proof.
  intros Hm Hk w. rewrite run_bind.
  destruct (fst (m w)); [|apply Hm..].
  etransitivity; [apply Hm | apply Hk].
Qed.

Lemma always_ret {A} (R : World -> World -> Prop) `{!Reflexive R} (a : A) :
  always R (ret a).
Proof. intros w. apply reflexivity. Qed.

Lemma always_exit {A} (R : World -> World -> Prop) `{!Reflexive R} (s : Z) :
  always R (@std_exit A s).
Proof. intros w. apply reflexivity. Qed.

Lemma always_for_each {A} (R : World -> World -> Prop) `{!PreOrder R}
  (l : list A) (body : A -> M unit) :
  (forall x, always R (body x)) -> always R (for_each l body).
Proof.
  intros H. induction l as [|x l IH]; simpl.
  - now apply always_ret.
  - apply always_bind; auto.
Qed.

Lemma always_for_loop (R : World -> World -> Prop) `{!PreOrder R}
  (from bound : nat) (body : nat -> M unit) :
  (forall i, always R (body i)) -> always R (for_loop from bound body).
Proof.
  intros H. unfold for_loop. apply always_bind; [assumption| |].
  - now apply always_for_each.
  - intros _. now apply always_ret.
Qed.

Lemma returns_bind {A B} (m : M A) (k : A -> M B) :
  returns m -> (forall a, returns (k a)) -> returns (bind m k).
Proof.
  intros Hm Hk w. destruct (returns_eq m w Hm) as [a Ha].
  rewrite (bind_returns _ _ _ _ _ Ha). apply Hk.
Qed.

Lemma returns_ret {A} (a : A) : returns (ret a).
Proof. intros w. now exists a. Qed.

Lemma returns_effect (f : World -> World) : returns (effect f).
Proof. intros w. now exists tt. Qed.

Lemma returns_for_each {A} (l : list A) (body : A -> M unit) :
  (forall x, returns (body x)) -> returns (for_each l body).
Proof.
  intros H. induction l as [|x l IH]; simpl.
  - apply returns_ret.
  - apply returns_bind; auto.
Qed.

#[local] Instance emits_preorder (P : call -> Prop) : PreOrder (emits P).
Proof.
  split.
  - intros w. exists []. now rewrite app_nil_r.
  - intros w1 w2 w3 (l1 & H1 & F1) (l2 & H2 & F2).
    exists (l1 ++ l2). rewrite H2, H1, app_assoc. split; [reflexivity|].
    now apply Forall_app.
Qed.

#[local] Instance same_dev_preorder : PreOrder same_dev.
Proof.
  split; [now intros w|].
  intros w1 w2 w3 H1 H2. unfold same_dev in *. congruence.
Qed.

#[local] Instance log_grows_preorder : PreOrder log_grows.
Proof.
  split.
  - intros w name. exists EmptyString. now rewrite append_nil_r.
  - intros w1 w2 w3 H1 H2 name.
    destruct (H1 name) as [s1 E1], (H2 name) as [s2 E2].
    exists (s1 +:+ s2). now rewrite E2, E1, append_assoc.
Qed.

#[local] Instance steady_preorder : PreOrder steady.
Proof.
  split.
  - intros w. split; [reflexivity|]. split; [reflexivity|].
    exists O. simpl. now rewrite app_nil_r.
  - intros w1 w2 w3 (C1 & E1 & k1 & K1) (C2 & E2 & k2 & K2).
    split; [congruence|]. split; [now transitivity w2|].
    exists (k1 + k2)%nat.
    rewrite K2, K1, C1, repeat_app, app_assoc. reflexivity.
Qed.

#[local] Instance handled_preorder : PreOrder handled.
Proof.
  split.
  - intros w. split; [reflexivity | repeat split; reflexivity].
  - intros w1 w2 w3 (E1 & A1 & B1 & C1) (E2 & A2 & B2 & C2).
    split; [now transitivity w2 | repeat split; congruence].
Qed.

(** ** The parts of the program, one relation at a time *)

Create HintDb prims.

Section Parts.

Variable E : Env.

Lemma log_to_debug_file_returns name args :
  returns (log_to_debug_file E name args).
Proof. intros w. rewrite log_to_debug_file_eq. now eexists. Qed.

Lemma log_to_debug_file_same_dev name args :
  always same_dev (log_to_debug_file E name args).
Proof.
  intros w. unfold run. rewrite log_to_debug_file_eq.
  apply dev_log_result.
Qed.

Lemma log_to_debug_file_grows name args :
  always log_grows (log_to_debug_file E name args).
Proof.
  intros w other. unfold run. rewrite log_to_debug_file_eq. cbn [snd].
  unfold log_result, logged, log_failed.
  destruct (open_ok E (opens (io w))); open_world.
  - destruct (decide (name = other)) as [->|Hne].
    + rewrite lookup_insert_eq. now eexists.
    + rewrite lookup_insert_ne by assumption.
      exists EmptyString. now rewrite append_nil_r.
  - exists EmptyString. now rewrite append_nil_r.
Qed.

Lemma debug_print_returns text : returns (debug_print E text).
Proof. intros w. unfold debug_print. destruct (DEBUG E); now eexists. Qed.

Lemma always_weaken {A} (R R' : World -> World -> Prop) (m : M A) :
  (forall w w', R w w' -> R' w w') -> always R m -> always R' m.
Proof. intros H Hm w. apply H, Hm. Qed.

Lemma same_fs_grows w w' : same_fs w w' -> log_grows w w'.
Proof.
  intros H name. exists EmptyString.
  unfold file_content. rewrite H. now rewrite append_nil_r.
Qed.

Lemma same_dev_emits P w w' : same_dev w w' -> emits P w w'.
Proof. intros H. exists []. rewrite H, app_nil_r. now split. Qed.

Lemma same_dev_steady w w' : same_dev w w' -> steady w w'.
Proof.
  intros H. unfold steady. rewrite H. split; [reflexivity|].
  split; [now apply same_dev_emits|].
  exists O. simpl. now rewrite app_nil_r.
Qed.

Lemma same_dev_handled w w' : same_dev w w' -> handled w w'.
Proof.
  intros H. unfold handled. rewrite H.
  split; [now apply same_dev_emits | repeat split; reflexivity].
Qed.

Lemma log_to_debug_file_emits P name args :
  always (emits P) (log_to_debug_file E name args).
Proof.
  apply (always_weaken same_dev);
    [apply same_dev_emits | apply log_to_debug_file_same_dev].
Qed.

Lemma log_to_debug_file_steady name args :
  always steady (log_to_debug_file E name args).
Proof.
  apply (always_weaken same_dev);
    [apply same_dev_steady | apply log_to_debug_file_same_dev].
Qed.

Lemma log_to_debug_file_handled name args :
  always handled (log_to_debug_file E name args).
Proof.
  apply (always_weaken same_dev);
    [apply same_dev_handled | apply log_to_debug_file_same_dev].
Qed.

(** GLFW's delivery of an event inherits what holds of every callback and
    of the raising of the close flag. *)
Lemma always_deliver (R : World -> World -> Prop) `{!Reflexive R} :
  (forall p k s a m, always R (key_cb E p k s a m)) ->
  (forall p b a m, always R (mousebutton_cb E p b a m)) ->
  (forall p x y, always R (mousepos_cb E p x y)) ->
  (forall p x y, always R (mousescroll_cb E p x y)) ->
  (forall p x y, always R (fbsize_cb p x y)) ->
  (forall c d, always R (glfw_error_cb E c d)) ->
  always R (effect (set_should_close true)) ->
  forall ev, always R (deliver E ev).
Proof.
  intros Hk Hb Hp Hs Hf He Hc ev w. unfold run, deliver.
  destruct ev;
    repeat match goal with
    | |- context [match handler ?s ?h with _ => _ end] =>
        destruct (handler s h) as [[]|]
    end;
    first [ exact (Hk _ _ _ _ _ w) | exact (Hb _ _ _ _ w)
          | exact (Hp _ _ _ w) | exact (Hs _ _ _ w)
          | exact (Hf (created_window E) _ _ w)
          | exact (He _ _ w) | exact (Hc w) | apply reflexivity ].
Qed.

Lemma always_poll (R : World -> World -> Prop) `{!PreOrder R} :
  always R (effect (fun w => count_poll (add_call GlfwPollEvents w))) ->
  (forall ev, always R (deliver E ev)) ->
  always R (glfwPollEvents E).
Proof.
  intros H0 Hd w. unfold run, glfwPollEvents.
  etransitivity; [apply (H0 w)|].
  apply (always_for_each R _ _ Hd).
Qed.

Lemma always_frame_loop (R : World -> World -> Prop) `{!PreOrder R} p :
  always R (glfwWindowShouldClose p) ->
  always R (draw p) ->
  always R (update E p) ->
  forall fuel, always R (frame_loop E fuel p).
Proof.
  intros Hc Hd Hu fuel. induction fuel as [|fuel IH]; simpl.
  - intros w. apply reflexivity.
  - apply always_bind; [assumption..|]. intros closing.
    destruct (negb closing); [|now apply always_ret].
    repeat (apply always_bind; [assumption..|intros _]). exact IH.
Qed.

End Parts.

(** Library calls that leave the files alone, or the device alone, or only
    add to the trace, are settled by running them. *)
Ltac prim_same :=
  intros ?; unfold run, debug_print;
  try match goal with |- context [DEBUG ?E] => destruct (DEBUG E) end;
  reflexivity.

Ltac emits_now :=
  unfold run; cbn;
  first [ exists []; split; [now rewrite app_nil_r | constructor]
        | eexists [_]; split;
          [reflexivity | repeat constructor; first [done | reflexivity]] ].

Ltac prim_emits := intros ?; emits_now.

Ltac prim_steady :=
  intros ?; unfold run; cbn;
  split; [reflexivity|];
  split;
  [ first [ exists []; split; [now rewrite app_nil_r | constructor]
          | eexists [_]; split; [reflexivity | repeat constructor] ]
  | first [ exists O; cbn; now rewrite app_nil_r
          | exists 1%nat; reflexivity ] ].

#[local] Hint Resolve log_to_debug_file_grows log_to_debug_file_returns
  log_to_debug_file_same_dev log_to_debug_file_emits
  log_to_debug_file_steady log_to_debug_file_handled
  debug_print_returns : prims.

Ltac prim_solve :=
  lazymatch goal with
  | |- always log_grows _ =>
      solve [apply (always_weaken same_fs); [apply same_fs_grows | prim_same]]
  | |- always (emits _) _ =>
      solve [ apply (always_weaken same_dev);
              [apply same_dev_emits | auto with prims]
            | apply (always_weaken same_dev);
              [apply same_dev_emits | prim_same]
            | prim_emits ]
  | |- always steady _ =>
      solve [ apply (always_weaken same_dev);
              [apply same_dev_steady | auto with prims]
            | apply (always_weaken same_dev);
              [apply same_dev_steady | prim_same]
            | prim_steady ]
  | |- always handled _ =>
      solve [ apply (always_weaken same_dev);
              [apply same_dev_handled | auto with prims]
            | apply (always_weaken same_dev);
              [apply same_dev_handled | prim_same]
            | intros ?; split; [emits_now | repeat split; reflexivity] ]
  | |- always same_dev _ => solve [prim_same]
  | |- returns _ => solve [intros ?; eexists; reflexivity]
  end.

(** Split a computation along its binds, branches and loops; what is known
    of a part is used as it stands, and the library calls are run. *)
Ltac always_split :=
  repeat first
    [ solve [auto with prims]
    | apply always_ret; solve [typeclasses eauto]
    | apply always_exit; solve [typeclasses eauto]
    | apply always_bind; [solve [typeclasses eauto] | | intros ?]
    | apply always_for_loop; [solve [typeclasses eauto] | intros ?]
    | apply always_for_each; [solve [typeclasses eauto] | intros ?]
    | match goal with
      | |- always _ (if ?b then _ else _) => destruct b
      end
    | prim_solve ].

Ltac returns_split :=
  repeat first
    [ solve [auto with prims]
    | apply returns_ret
    | apply returns_effect
    | apply returns_bind; [| intros ?]
    | apply returns_for_each; intros ?
    | match goal with
      | |- returns (if ?b then _ else _) => destruct b
      end
    | prim_solve ].

Section Callbacks.

Variable E : Env.
Variable R : World -> World -> Prop.
Context `{!PreOrder R}.

(** What must hold of the few library calls callbacks and frames make. *)
Hypothesis R_viewport : forall x y w h, always R (glViewport x y w h).
Hypothesis R_set_close : forall p v, always R (glfwSetWindowShouldClose p v).
Hypothesis R_close : always R (effect (set_should_close true)).
Hypothesis R_log : forall name args, always R (log_to_debug_file E name args).
Hypothesis R_debug : forall text, always R (debug_print E text).

Lemma always_callbacks (ev : event) : always R (deliver E ev).
Proof.
  apply always_deliver; [typeclasses eauto|..]; try assumption; intros;
    unfold key_cb, mousebutton_cb, mousepos_cb, mousescroll_cb, fbsize_cb,
      glfw_error_cb;
    always_split.
Qed.

End Callbacks.

Section Frames.

Variable E : Env.

Lemma deliver_grows ev : always log_grows (deliver E ev).
Proof. apply always_callbacks; [typeclasses eauto|..]; intros; always_split. Qed.

Lemma deliver_steady ev : always steady (deliver E ev).
Proof. apply always_callbacks; [typeclasses eauto|..]; intros; always_split. Qed.

Lemma deliver_handled ev : always handled (deliver E ev).
Proof. apply always_callbacks; [typeclasses eauto|..]; intros; always_split. Qed.

Lemma key_cb_returns p k sc a m : returns (key_cb E p k sc a m).
Proof. unfold key_cb. returns_split. Qed.

Lemma mousebutton_cb_returns p b a m : returns (mousebutton_cb E p b a m).
Proof. unfold mousebutton_cb. returns_split. Qed.

Lemma glfw_error_cb_returns c d : returns (glfw_error_cb E c d).
Proof. unfold glfw_error_cb. returns_split. Qed.

Lemma deliver_returns ev : returns (deliver E ev).
Proof.
  intros w. unfold deliver.
  destruct ev;
    repeat match goal with
    | |- context [match handler ?s ?h with _ => _ end] =>
        destruct (handler s h) as [[]|]
    end;
    first [ apply key_cb_returns | apply mousebutton_cb_returns
          | apply glfw_error_cb_returns | apply debug_print_returns
          | eexists; reflexivity ].
Qed.

Lemma frame_loop_grows fuel p : always log_grows (frame_loop E fuel p).
Proof.
  apply always_frame_loop; [typeclasses eauto|..].
  - prim_solve.
  - unfold draw. always_split.
  - unfold update. apply always_poll; [typeclasses eauto| |apply deliver_grows].
    prim_solve.
Qed.

Lemma frame_loop_steady fuel p : always steady (frame_loop E fuel p).
Proof.
  apply always_frame_loop; [typeclasses eauto|..].
  - prim_solve.
  - unfold draw. always_split.
  - unfold update. apply always_poll; [typeclasses eauto| |apply deliver_steady].
    prim_solve.
Qed.

End Frames.

(** ** The keyboard callback *)

(** C8.  [key_cb] returns, and afterwards the close flag is up if the key is
    ESC and the action a press, and is what it was for every other key and
    action; [glfwSetWindowShouldClose] is called in the first case only, and
    nothing else of the window, of GL or of the files changes. *)
Theorem key_cb_close_flag (E : Env) (pwin : GLFWwindow)
  (key scancode action mods : Z) (w : World) :
  let r := key_cb E pwin key scancode action mods w in
  let esc_pressed := (key =? GLFW_KEY_ESCAPE) && (action =? GLFW_PRESS) in
  fst r = Ret tt
  /\ should_close (dev (snd r))
     = (if esc_pressed then true else should_close (dev w))
  /\ calls (dev (snd r))
     = calls (dev w)
       ++ (if esc_pressed then [GlfwSetWindowShouldClose pwin GLFW_TRUE]
           else [])
  /\ (polls (dev (snd r)), handlers (dev (snd r)), clear_color (dev (snd r)),
      viewport (dev (snd r)), cleared (dev (snd r)))
     = (polls (dev w), handlers (dev w), clear_color (dev w),
        viewport (dev w), cleared (dev w))
  /\ fs (io (snd r)) = fs (io w).
Proof.
  cbv zeta. unfold key_cb, debug_print.
  rewrite (Z.eqb_sym key), (Z.eqb_sym action).
  destruct (GLFW_KEY_ESCAPE =? key), (GLFW_PRESS =? action),
    (GLFW_REPEAT =? action), (GLFW_RELEASE =? action), (DEBUG E);
    cbn; rewrite ?app_nil_r; repeat split; reflexivity.
Qed.

(** ** The frame loop *)

Section Loop.

Variable E : Env.
Variable p : GLFWwindow.

Lemma draw_eq (w : World) :
  draw p w
  = (Ret tt,
     add_call (GlfwSwapBuffers p)
       (clear_buffer (add_call (GlClear GL_COLOR_BUFFER_BIT) w))).
Proof. reflexivity. Qed.

Lemma update_eq (w : World) : update E p w = (Ret tt, run (update E p) w).
Proof.
  destruct (returns_eq (update E p) w) as [[] H]; [|exact H].
  unfold update, glfwPollEvents. intros w0.
  apply returns_for_each, deliver_returns.
Qed.

Lemma frame_step_eq (w : World) :
  frame_step E p w
  = run (for_each (events E (polls (dev w))) (deliver E))
      (count_poll
         (add_call GlfwPollEvents
            (add_call (GlfwSwapBuffers p)
               (clear_buffer
                  (add_call (GlClear GL_COLOR_BUFFER_BIT)
                     (add_call (GlfwWindowShouldClose p) w)))))).
Proof. reflexivity. Qed.

(** One pass: the test, the clearing, the swap and the poll, in this order,
    then whatever the callbacks of the delivered events call. *)
Lemma frame_step_calls (w : World) :
  exists cb,
    calls (dev (frame_step E p w)) = calls (dev w) ++ frame_calls p ++ cb
    /\ Forall is_callback_call cb
    /\ cleared (dev (frame_step E p w))
       = cleared (dev w) ++ [clear_color (dev w)]
    /\ polls (dev (frame_step E p w)) = S (polls (dev w))
    /\ clear_color (dev (frame_step E p w)) = clear_color (dev w).
Proof.
  rewrite frame_step_eq.
  match goal with
  | |- context [run (for_each ?l ?b) ?w0] =>
      destruct (always_for_each handled l b (deliver_handled E) w0)
        as ((cb & Hcb & Fcb) & Hcc & Hcl & Hp)
  end.
  exists cb. rewrite Hcb, Hcl, Hp, Hcc. cbn.
  rewrite <- !app_assoc. repeat split; try reflexivity. exact Fcb.
Qed.

Lemma frame_loop_unfold (fuel : nat) (w : World) :
  frame_loop E (S fuel) p w =
  if should_close (dev w)
  then (Ret tt, add_call (GlfwWindowShouldClose p) w)
  else frame_loop E fuel p (frame_step E p w).
Proof.
  cbn [frame_loop]. rewrite bind_unfold.
  unfold glfwWindowShouldClose at 1.
  change (should_close (dev (add_call (GlfwWindowShouldClose p) w)))
    with (should_close (dev w)).
  destruct (should_close (dev w)); cbn [negb]; [reflexivity|].
  rewrite bind_unfold, draw_eq, bind_unfold, update_eq.
  reflexivity.
Qed.

End Loop.

Lemma frames_shift (E : Env) (p : GLFWwindow) (k : nat) (w : World) :
  frames E p (S k) w = frames E p k (frame_step E p w).
Proof. unfold frames. apply Nat.iter_succ_r. Qed.

(** C2.  Take any world at the head of the loop and any number [k] of
    passes such that the close flag is down at the head of each of the first
    [k] passes and up after them.  Then the loop, given room for more than
    [k] passes, returns right after the test that follows pass [k], having
    made no further call; and each pass before it tested the flag, cleared
    the colour buffer to the current clear colour, swapped the buffers and
    polled once, in this order, followed only by the calls of the callbacks
    GLFW ran for the polled events. *)
Theorem frame_loop_passes (E : Env) (p : GLFWwindow) (k : nat) (w : World) :
  (forall j, (j < k)%nat -> should_close (dev (frames E p j w)) = false) ->
  should_close (dev (frames E p k w)) = true ->
  forall fuel, (k < fuel)%nat ->
    frame_loop E fuel p w
    = (Ret tt, add_call (GlfwWindowShouldClose p) (frames E p k w))
    /\ forall j, (j < k)%nat ->
         exists cb,
           calls (dev (frames E p (S j) w))
           = calls (dev (frames E p j w)) ++ frame_calls p ++ cb
           /\ Forall is_callback_call cb
           /\ cleared (dev (frames E p (S j) w))
              = cleared (dev (frames E p j w))
                ++ [clear_color (dev (frames E p j w))]
           /\ polls (dev (frames E p (S j) w))
              = S (polls (dev (frames E p j w))).
Proof.
  intros Hdown Hup fuel Hfuel. split.
  - revert w fuel Hdown Hup Hfuel.
    induction k as [|k IH]; intros w fuel Hdown Hup Hfuel;
      (destruct fuel as [|fuel]; [lia|]); rewrite frame_loop_unfold.
    + cbn in Hup. now rewrite Hup.
    + change (should_close (dev w))
        with (should_close (dev (frames E p O w))).
      rewrite (Hdown O) by lia.
      rewrite frames_shift in *.
      apply IH; [|assumption|lia].
      intros j Hj. rewrite <- frames_shift. apply Hdown. lia.
  - intros j _.
    destruct (frame_step_calls E p (frames E p j w))
      as (cb & Hc & Hf & Hcl & Hp & _).
    exists cb. cbn [frames Nat.iter] in *. auto.
Qed.

Lemma frame_loop_passes_desk :
  (forall j, (j < 3)%nat ->
     should_close (dev (frames desk 4096 j ready)) = false)
  /\ should_close (dev (frames desk 4096 3 ready)) = true
  /\ (3 < 10)%nat
  /\ frame_loop desk 10 4096 ready
     = (Ret tt, add_call (GlfwWindowShouldClose 4096) (frames desk 4096 3 ready))
  /\ forall j, (j < 3)%nat ->
       exists cb,
         calls (dev (frames desk 4096 (S j) ready))
         = calls (dev (frames desk 4096 j ready)) ++ frame_calls 4096 ++ cb
         /\ Forall is_callback_call cb
         /\ cleared (dev (frames desk 4096 (S j) ready))
            = cleared (dev (frames desk 4096 j ready))
              ++ [clear_color (dev (frames desk 4096 j ready))]
         /\ polls (dev (frames desk 4096 (S j) ready))
            = S (polls (dev (frames desk 4096 j ready))).
Proof.
  assert (Hdown : forall j, (j < 3)%nat ->
            should_close (dev (frames desk 4096 j ready)) = false).
  { intros [|[|[|j]]] Hj; [vm_compute; reflexivity..|lia]. }
  assert (Hup : should_close (dev (frames desk 4096 3 ready)) = true)
    by (vm_compute; reflexivity).
  assert (Hfuel : (3 < 10)%nat) by lia.
  split; [exact Hdown|]. split; [exact Hup|]. split; [exact Hfuel|].
  exact (frame_loop_passes desk 4096 3 ready Hdown Hup 10 Hfuel).
Defined.

(** While the flag stays down the loop does not return: a budget of [fuel]
    passes is used up. *)
Lemma frame_loop_runs_on (E : Env) (p : GLFWwindow) (fuel : nat) (w : World) :
  (forall j, (j < fuel)%nat -> should_close (dev (frames E p j w)) = false) ->
  frame_loop E fuel p w = (Hang, frames E p fuel w).
Proof.
  revert w. induction fuel as [|fuel IH]; intros w Hdown; [reflexivity|].
  rewrite frame_loop_unfold.
  change (should_close (dev w)) with (should_close (dev (frames E p O w))).
  rewrite (Hdown O) by lia.
  rewrite frames_shift. apply IH.
  intros j Hj. rewrite <- frames_shift. apply Hdown. lia.
Qed.

(** ** The capability query *)

Lemma for_each_eq {A} (body : A -> M unit) (g : World -> A -> World)
  (l : list A) :
  (forall x w, body x w = (Ret tt, g w x)) ->
  forall w, for_each l body w = (Ret tt, fold_left g l w).
Proof.
  intros H. induction l as [|x l IH]; intros w; [reflexivity|].
  cbn [for_each fold_left]. rewrite bind_unfold, H. apply IH.
Qed.

Lemma for_loop_eq (body : nat -> M unit) (g : World -> nat -> World)
  (from bound : nat) :
  (forall i w, body i w = (Ret tt, g w i)) ->
  forall w,
    for_loop from bound body w
    = (Ret (Nat.max from bound), fold_left g (seq from (bound - from)) w).
Proof.
  intros H w. unfold for_loop.
  rewrite bind_unfold, (for_each_eq body g _ H). reflexivity.
Qed.

Lemma dev_add_calls (l : list call) (w : World) :
  dev (add_calls l w)
  = {| calls := calls (dev w) ++ l; should_close := should_close (dev w);
       polls := polls (dev w); handlers := handlers (dev w);
       clear_color := clear_color (dev w); viewport := viewport (dev w);
       cleared := cleared (dev w) |}.
Proof.
  unfold add_calls. revert w.
  induction l as [|c l IH]; intros [[] ?]; cbn [fold_left].
  - cbn. now rewrite app_nil_r.
  - rewrite IH. cbn. now rewrite <- app_assoc.
Qed.

Section Query.

Variable E : Env.

Lemma dev_query_row form entry w :
  dev (query_row E form entry w)
  = dev (add_call (query_call form (fst entry)) w).
Proof. unfold query_row. apply dev_log_result. Qed.

(** The world [query_gl_context] leaves: the title, the twenty-one rows of
    the table in the form of their position, the rule, the extensions. *)
Lemma glGetString_eq name w :
  glGetString E name w = (Ret (gl_string E name), add_call (GlGetString name) w).
Proof. reflexivity. Qed.

Lemma glGetIntegerv_eq pname w :
  glGetIntegerv E pname w
  = (Ret (gl_integerv E pname), add_call (GlGetIntegerv pname) w).
Proof. reflexivity. Qed.

Lemma glGetBooleanv_eq pname w :
  glGetBooleanv E pname w
  = (Ret (gl_booleanv E pname), add_call (GlGetBooleanv pname) w).
Proof. reflexivity. Qed.

Lemma glGetStringi_eq name index w :
  glGetStringi E name index w
  = (Ret (gl_stringi E name index), add_call (GlGetStringi name index) w).
Proof. reflexivity. Qed.

Lemma string_row_eq i w :
  (text <- glGetString E (fst (param i)) ;;
   log_to_debug_file E g_logfilename [PStr (snd (param i)); PStr text] ;;;
   ret tt) w
  = (Ret tt, query_row E StringQuery (param i) w).
Proof.
  rewrite bind_unfold, glGetString_eq. cbv beta iota.
  rewrite bind_unfold, log_to_debug_file_eq. reflexivity.
Qed.

Lemma integer_row_eq i w :
  (val <- glGetIntegerv E (fst (param i)) ;;
   log_to_debug_file E g_logfilename [PStr (snd (param i)); PInt (val O)] ;;;
   ret tt) w
  = (Ret tt, query_row E IntegerQuery (param i) w).
Proof.
  rewrite bind_unfold, glGetIntegerv_eq. cbv beta iota.
  rewrite bind_unfold, log_to_debug_file_eq. reflexivity.
Qed.

Lemma extension_row_eq i w :
  (text <- glGetStringi E GL_EXTENSIONS (Z.of_nat i) ;;
   log_to_debug_file E g_logfilename
     [PInt (Z.of_nat i + 1); PStr ": "; PStr text] ;;;
   ret tt) w
  = (Ret tt, extension_row E w i).
Proof.
  rewrite bind_unfold, glGetStringi_eq. cbv beta iota.
  rewrite bind_unfold, log_to_debug_file_eq. reflexivity.
Qed.

(** The world [query_gl_context] leaves: the title, the twenty-one rows of
    the table in the form of their position, the rule, the extensions. *)
Lemma query_gl_context_eq (w : World) :
  query_gl_context E w
  = (Ret tt,
     fold_left (extension_row E) (seq 0 (extension_count E))
       (add_call (GlGetIntegerv GL_NUM_EXTENSIONS)
          (log_result E g_logfilename [PStr "-----------------------------"]
             (fold_left (fun w i => query_row E (form_at i) (param i) w)
                (seq 0 21)
                (log_result E g_logfilename
                   [PStr "GL version information and context parameters:"]
                   w))))).
Proof.
  unfold query_gl_context.
  rewrite bind_unfold, log_to_debug_file_eq. cbv beta iota.
  rewrite bind_unfold.
  rewrite (for_loop_eq _ (fun w i => query_row E StringQuery (param i) w))
    by apply string_row_eq.
  cbv beta iota. rewrite bind_unfold.
  rewrite (for_loop_eq _ (fun w i => query_row E IntegerQuery (param i) w))
    by apply integer_row_eq.
  cbv beta iota.
  rewrite bind_unfold, glGetIntegerv_eq. cbv beta iota.
  rewrite bind_unfold, log_to_debug_file_eq. cbv beta iota.
  rewrite bind_unfold, glGetBooleanv_eq. cbv beta iota.
  rewrite bind_unfold, log_to_debug_file_eq. cbv beta iota.
  rewrite bind_unfold, log_to_debug_file_eq. cbv beta iota.
  rewrite bind_unfold, glGetIntegerv_eq. cbv beta iota.
  rewrite bind_unfold.
  rewrite (for_loop_eq _ (extension_row E)) by apply extension_row_eq.
  rewrite Nat.sub_0_r. reflexivity.
Qed.

End Query.

Lemma dev_fold_calls {A} (g : World -> A -> World) (c : A -> call)
  (l : list A) :
  (forall w x, dev (g w x) = dev (add_call (c x) w)) ->
  forall w, dev (fold_left g l w) = dev (add_calls (map c l) w).
Proof.
  intros H. induction l as [|x l IH]; intros w; [reflexivity|].
  cbn [fold_left map]. rewrite IH, !dev_add_calls, H. cbn.
  now rewrite <- app_assoc.
Qed.

Lemma dev_query_gl_context (E : Env) (w : World) :
  dev (run (query_gl_context E) w) = dev (add_calls (query_calls E) w).
Proof.
  unfold run. rewrite query_gl_context_eq. cbn [snd].
  rewrite (dev_fold_calls _
             (fun i => GlGetStringi GL_EXTENSIONS (Z.of_nat i)))
    by (intros; apply dev_log_result).
  rewrite !dev_add_calls. cbn [dev add_call on_dev calls should_close polls
    handlers clear_color viewport cleared].
  rewrite dev_log_result.
  rewrite (dev_fold_calls _
             (fun i => query_call (form_at i) (fst (param i))))
    by (intros; apply dev_query_row).
  rewrite dev_add_calls, dev_log_result. cbn [calls should_close polls
    handlers clear_color viewport cleared].
  unfold query_calls. rewrite <- !app_assoc. reflexivity.
Qed.

(** C4.  The table has twenty-one entries; the forms by position are four
    strings, fifteen single integers, one pair of integers and one boolean;
    [query_gl_context] returns, having logged the title, then for every
    position of the table, in order, made the GL call of the position's form
    on the entry's enumerant and logged the entry's label with the values of
    that form, then logged the rule and listed the extensions; and its GL
    calls are those of the table by position, the count of extensions and
    one string query per extension. *)
Theorem query_gl_context_by_position (E : Env) (w : World) :
  length params = 21%nat
  /\ map form_at (seq 0 21)
     = repeat StringQuery 4 ++ repeat IntegerQuery 15
       ++ [DualIntegerQuery; BooleanQuery]
  /\ query_gl_context E w
     = (Ret tt,
        fold_left (extension_row E) (seq 0 (extension_count E))
          (add_call (GlGetIntegerv GL_NUM_EXTENSIONS)
             (log_result E g_logfilename
                [PStr "-----------------------------"]
                (fold_left (fun w i => query_row E (form_at i) (param i) w)
                   (seq 0 (length params))
                   (log_result E g_logfilename
                      [PStr "GL version information and context parameters:"]
                      w)))))
  /\ calls (dev (run (query_gl_context E) w))
     = calls (dev w)
       ++ imap (fun i entry => query_call (form_at i) (fst entry)) params
       ++ GlGetIntegerv GL_NUM_EXTENSIONS
       :: map (fun i => GlGetStringi GL_EXTENSIONS (Z.of_nat i))
            (seq 0 (extension_count E)).
Proof.
  split; [reflexivity|]. split; [reflexivity|].
  split; [apply query_gl_context_eq|].
  rewrite dev_query_gl_context, dev_add_calls. reflexivity.
Qed.

(** ** The context bootstrap *)

(** Run the library calls at the head of a computation. *)
Ltac exec_prims :=
  cbv beta iota zeta delta
    [bind ret emit effect std_exit negb fst snd
     glfwInit glfwGetVersionString glfwSetErrorCallback glfwWindowHint
     glfwMakeContextCurrent glfwSetFramebufferSizeCallback glfwSetKeyCallback
     glfwSetMouseButtonCallback glfwSetCursorPosCallback glfwSetScrollCallback
     glfwSetInputMode glfwGetFramebufferSize glfwDestroyWindow glfwTerminate
     glewInit glewGetErrorString glewGetString
     glClearColor glViewport fbsize_cb init_gl_state cleanup].

(** Compute the windowing side of a world built from updates. *)
Ltac dev_norm :=
  repeat (cbn [dev calls should_close polls handlers clear_color viewport
               cleared add_call install set_should_close count_poll
               set_clear_color set_viewport clear_buffer on_dev app];
          rewrite ?dev_log_result, ?dev_create_result).

Section Context.

Variable E : Env.

Lemma deliver_error_same_dev code description :
  always same_dev (deliver E (EvError code description)).
Proof.
  intros w. unfold run, deliver.
  destruct (handler ErrorSlot (handlers (dev w))) as [[]|];
    try reflexivity.
  unfold glfw_error_cb. rewrite bind_unfold, log_to_debug_file_eq.
  apply dev_log_result.
Qed.

Lemma glfwCreateWindow_eq fbwd fbht title w :
  exists w',
    glfwCreateWindow E fbwd fbht title w = (Ret (created_window E), w')
    /\ dev w'
       = dev ((if created_window E =? NULL then fun w => w
               else set_should_close false)
                (add_call (GlfwCreateWindow fbwd fbht title) w))
    /\ log_grows w w'.
Proof.
  unfold glfwCreateWindow.
  rewrite bind_unfold. unfold emit at 1, effect at 1. cbv iota beta.
  rewrite bind_unfold.
  set (w1 := add_call _ w).
  set (body := fun e : Z * string => deliver E (EvError (fst e) (snd e))).
  destruct (returns_eq (for_each (create_window_errors E) body) w1)
    as [[] Hr].
  { apply returns_for_each. intros e. apply deliver_returns. }
  rewrite Hr.
  assert (Hd : same_dev w1 (run (for_each (create_window_errors E) body) w1)).
  { apply always_for_each; [typeclasses eauto|].
    intros e. apply deliver_error_same_dev. }
  assert (Hg : log_grows w1 (run (for_each (create_window_errors E) body) w1)).
  { apply always_for_each; [typeclasses eauto|].
    intros e. apply deliver_grows. }
  destruct (created_window E =? NULL); eexists; (split; [reflexivity|]);
    cbn; rewrite Hd; (split; [reflexivity|]); exact Hg.
Qed.

Lemma create_gl_context_glfw_fails fbwd fbht title w :
  glfwInit_ok E = false ->
  create_gl_context E fbwd fbht title w
  = (Exit EXIT_FAILURE,
     log_result E g_logfilename
       [PStr "ERROR: Initialization of GLFW has failed - program aborted"]
       (add_call GlfwInit w)).
Proof.
  intros H0. unfold create_gl_context.
  exec_prims. rewrite H0. exec_prims. rewrite log_to_debug_file_eq.
  reflexivity.
Qed.

Lemma create_gl_context_ok fbwd fbht title w :
  glfwInit_ok E = true ->
  (created_window E =? NULL) = false ->
  exists w',
    create_gl_context E fbwd fbht title w = (Ret (created_window E), w')
    /\ dev w'
       = {| calls := calls (dev w)
                     ++ context_calls fbwd fbht title (created_window E);
            should_close := false;
            polls := polls (dev w);
            handlers := context_handlers ++ handlers (dev w);
            clear_color := clear_color (dev w);
            viewport := viewport (dev w);
            cleared := cleared (dev w) |}.
Proof.
  intros H0 H1. unfold create_gl_context.
  exec_prims. rewrite H0. exec_prims. rewrite log_to_debug_file_eq.
  exec_prims.
  match goal with
  | |- context [glfwCreateWindow E ?a ?b ?t ?w0] =>
      destruct (glfwCreateWindow_eq a b t w0) as (w1 & -> & Hd & _)
  end.
  rewrite H1 in *. exec_prims.
  eexists. split; [reflexivity|].
  dev_norm. rewrite Hd. dev_norm.
  rewrite <- !app_assoc. reflexivity.
Qed.

Lemma create_gl_context_window_fails fbwd fbht title w :
  glfwInit_ok E = true ->
  (created_window E =? NULL) = true ->
  exists w1,
    create_gl_context E fbwd fbht title w
    = (Exit EXIT_FAILURE,
       add_call GlfwTerminate
         (log_result E g_logfilename
            [PStr ("ERROR: GLFW is unable to create an OpenGL context."
                   +:+ endl)] w1))
    /\ dev w1
       = {| calls := calls (dev w) ++ window_attempt_calls fbwd fbht title;
            should_close := should_close (dev w);
            polls := polls (dev w);
            handlers := (ErrorSlot, ptr_glfw_error_cb) :: handlers (dev w);
            clear_color := clear_color (dev w);
            viewport := viewport (dev w);
            cleared := cleared (dev w) |}.
Proof.
  intros H0 H1. unfold create_gl_context.
  exec_prims. rewrite H0. exec_prims. rewrite log_to_debug_file_eq.
  exec_prims.
  match goal with
  | |- context [glfwCreateWindow E ?a ?b ?t ?w0] =>
      destruct (glfwCreateWindow_eq a b t w0) as (w1 & -> & Hd & _)
  end.
  rewrite H1 in *. exec_prims. rewrite log_to_debug_file_eq.
  exists w1. split; [reflexivity|].
  rewrite Hd. dev_norm.
  rewrite <- !app_assoc. reflexivity.
Qed.

End Context.

(** ** The loader and [main] up to the frame loop *)

Section Boot.

Variable E : Env.

Lemma init_gl_loader_eq (w : World) :
  init_gl_loader E w =
  if negb (GLEW_OK =? glewInit_result E) then
    (Ret GL_FALSE,
     log_result E g_logfilename (failure_message E GlewInitFailed)
       (add_call (GlewGetErrorString (glewInit_result E))
          (add_call GlewInit w)))
  else if GLEW_VERSION_4_5 E then
    (Ret GL_TRUE,
     log_result E g_logfilename
       [PStr ("Graphics driver supports OpenGL version 4.5" +:+ endl)]
       (log_result E g_logfilename
          [PStr "GLEW Version: "; PStr (glew_version_string E)]
          (add_call GlewGetString (add_call GlewInit w))))
  else
    (Ret GL_FALSE,
     log_result E g_logfilename (failure_message E NoGL45)
       (add_call GlewInit w)).
Proof.
  unfold init_gl_loader. exec_prims.
  destruct (GLEW_OK =? glewInit_result E); [destruct (GLEW_VERSION_4_5 E)|];
    exec_prims; rewrite ?log_to_debug_file_eq; reflexivity.
Qed.

Lemma query_gl_context_returns (w : World) :
  query_gl_context E w = (Ret tt, run (query_gl_context E) w).
Proof. unfold run. now rewrite query_gl_context_eq. Qed.

Lemma main_boots (w : World) :
  init_succeeds E = true ->
  exists wb,
    dev wb
    = {| calls := calls (dev w) ++ boot_calls E ++ state_calls E;
         should_close := false;
         polls := polls (dev w);
         handlers := context_handlers ++ handlers (dev w);
         clear_color := green;
         viewport := (0, 0, fst (framebuffer_size E), snd (framebuffer_size E));
         cleared := cleared (dev w) |}
    /\ forall fuel,
         main E fuel w = finish (frame_loop E fuel (created_window E) wb).
Proof.
  unfold init_succeeds. rewrite !andb_true_iff, negb_true_iff.
  intros [[[H0 H1] H2] H3].
  destruct (create_gl_context_ok E 2400 1350 main_title (create_result E w)
              H0 H1) as (w1 & Hc & Hd1).
  set (w2 := run (query_gl_context E)
               (log_result E g_logfilename
                  [PStr ("Graphics driver supports OpenGL version 4.5"
                         +:+ endl)]
                  (log_result E g_logfilename
                     [PStr "GLEW Version: "; PStr (glew_version_string E)]
                     (add_call GlewGetString (add_call GlewInit w1))))).
  exists (run (init_gl_state E (created_window E)) w2). split.
  - unfold run. exec_prims. dev_norm. subst w2.
    rewrite dev_query_gl_context, dev_add_calls. dev_norm.
    rewrite Hd1. dev_norm.
    unfold boot_calls, state_calls. rewrite <- !app_assoc. reflexivity.
  - intros fuel. unfold main.
    rewrite bind_unfold, create_log_file_eq. cbv beta iota.
    rewrite bind_unfold.
    change ("init-1: OpenGL 4.5 - " +:+
            "create debug log file and clear colorbuffer with constant color")
      with main_title.
    rewrite Hc. cbv beta iota.
    rewrite bind_unfold, init_gl_loader_eq, H2, H3.
    cbv beta iota delta [negb].
    change (GL_FALSE =? GL_TRUE) with false. cbv beta iota.
    rewrite bind_unfold. unfold ret at 1. cbv beta iota.
    rewrite bind_unfold, query_gl_context_returns. cbv beta iota.
    fold w2. rewrite bind_unfold.
    change (init_gl_state E (created_window E) w2)
      with (Ret tt, run (init_gl_state E (created_window E)) w2).
    cbv beta iota. unfold finish, bind.
    destruct (frame_loop E fuel (created_window E) _) as [[[]|s|] w3];
      reflexivity.
Qed.

(** [main] on a failing bootstrap: it logs the failure from some world
    [w1], makes its last calls, and exits. *)
Lemma main_fails (f : init_failure) (fuel : nat) (w : World) :
  first_failure E = Some f ->
  exists w1,
    main E fuel w
    = (Exit EXIT_FAILURE,
       add_calls (calls_after_failure E f)
         (log_result E g_logfilename (failure_message E f) w1))
    /\ calls (dev w1) = calls (dev w) ++ calls_before_failure E f
    /\ clear_color (dev w1) = clear_color (dev w)
    /\ cleared (dev w1) = cleared (dev w)
    /\ polls (dev w1) = polls (dev w).
Proof.
  unfold first_failure. intros Hf. unfold main.
  rewrite bind_unfold, create_log_file_eq. cbv beta iota.
  rewrite bind_unfold.
  change ("init-1: OpenGL 4.5 - " +:+
          "create debug log file and clear colorbuffer with constant color")
    with main_title.
  destruct (glfwInit_ok E) eqn:H0; cbn [negb] in Hf.
  2:{ injection Hf as <-.
      rewrite create_gl_context_glfw_fails by assumption.
      eexists. split; [reflexivity|]. dev_norm.
      repeat split; reflexivity. }
  destruct (created_window E =? NULL) eqn:H1.
  { injection Hf as <-.
    destruct (create_gl_context_window_fails E 2400 1350 main_title
                (create_result E w) H0 H1) as (w1 & -> & Hd).
    exists w1. split; [reflexivity|]. rewrite Hd. dev_norm.
    repeat split; reflexivity. }
  destruct (create_gl_context_ok E 2400 1350 main_title (create_result E w)
              H0 H1) as (w1 & -> & Hd).
  cbv beta iota. rewrite bind_unfold, init_gl_loader_eq.
  destruct (GLEW_OK =? glewInit_result E) eqn:H2; cbn [negb] in Hf |- *.
  2:{ injection Hf as <-. cbv beta iota.
      rewrite bind_unfold. change (GL_FALSE =? GL_FALSE) with true.
      exec_prims.
      eexists. split; [reflexivity|]. dev_norm. rewrite Hd. dev_norm.
      rewrite <- !app_assoc. repeat split; reflexivity. }
  destruct (GLEW_VERSION_4_5 E) eqn:H3; cbn [negb] in Hf; [discriminate|].
  injection Hf as <-. cbv beta iota.
  rewrite bind_unfold. change (GL_FALSE =? GL_FALSE) with true.
  exec_prims.
  eexists. split; [reflexivity|]. dev_norm. rewrite Hd. dev_norm.
  rewrite <- !app_assoc. repeat split; reflexivity.
Qed.

End Boot.

(** ** Which calls the loop makes *)

Lemma emits_weaken (P Q : call -> Prop) (w w' : World) :
  (forall c, P c -> Q c) -> emits P w w' -> emits Q w w'.
Proof.
  intros H (l & Hl & F). exists l. split; [assumption|].
  eapply Forall_impl; eauto.
Qed.

Section LoopCalls.

Variable E : Env.

Lemma deliver_emits ev : always (emits is_callback_call) (deliver E ev).
Proof. intros w. apply (deliver_handled E ev w). Qed.

Lemma frame_loop_emits fuel p :
  always (emits (fun c => is_frame_call c = true \/ is_callback_call c))
    (frame_loop E fuel p).
Proof.
  apply always_frame_loop; [typeclasses eauto|..].
  - intros w. exists [GlfwWindowShouldClose p]. split; [reflexivity|].
    repeat constructor.
  - intros w.
    exists [GlClear GL_COLOR_BUFFER_BIT; GlfwSwapBuffers p].
    split; [unfold run; cbn; now rewrite <- app_assoc|].
    repeat constructor.
  - unfold update. apply always_poll; [typeclasses eauto|..].
    + intros w. exists [GlfwPollEvents]. split; [reflexivity|].
      repeat constructor.
    + intros ev w. eapply emits_weaken; [|apply deliver_emits]. auto.
Qed.

End LoopCalls.

(** ** The order of the bootstrap *)

Lemma squash_repeat (x : phase) (n : nat) : squash (x :: repeat x n) = [x].
Proof.
  induction n as [|n IH]; [reflexivity|].
  change (squash (x :: repeat x (S n)))
    with (match squash (x :: repeat x n) with
          | [] => [x]
          | y :: tail => if phase_eqb x y then y :: tail else x :: y :: tail
          end).
  rewrite IH. now destruct x.
Qed.

Lemma squash_app_repeat (l : list phase) (x : phase) (n : nat) :
  squash (l ++ x :: repeat x n) = squash (l ++ [x]).
Proof.
  induction l as [|y l IH].
  - cbn [app]. rewrite squash_repeat. reflexivity.
  - cbn [app squash]. now rewrite IH.
Qed.

Lemma omap_phase_extensions (l : list nat) :
  omap phase_of (map (fun i => GlGetStringi GL_EXTENSIONS (Z.of_nat i)) l)
  = repeat CapabilityQuery (length l).
Proof. induction l as [|i l IH]; [reflexivity|]. cbn. now rewrite IH. Qed.

Lemma phases_boot_calls (E : Env) : phases (boot_calls E) = coded_order.
Proof.
  unfold phases, boot_calls, query_calls.
  rewrite !omap_app. cbn [omap list_omap]. rewrite omap_phase_extensions.
  exact (squash_app_repeat
           (omap phase_of
              (context_calls 2400 1350 main_title (created_window E))
            ++ [LoaderInit]
            ++ omap phase_of
                 (imap (fun i entry => query_call (form_at i) (fst entry))
                    params))
           CapabilityQuery _).
Qed.

Lemma first_failure_none (E : Env) :
  first_failure E = None <-> init_succeeds E = true.
Proof.
  unfold first_failure, init_succeeds.
  destruct (glfwInit_ok E), (created_window E =? NULL),
    (GLEW_OK =? glewInit_result E), (GLEW_VERSION_4_5 E);
    cbn; split; congruence.
Qed.

Lemma run_finish (r : outcome unit * World) :
  exists tail,
    calls (dev (snd (finish r))) = calls (dev (snd r)) ++ tail
    /\ Forall (fun c => c = GlfwTerminate) tail
    /\ clear_color (dev (snd (finish r))) = clear_color (dev (snd r))
    /\ cleared (dev (snd (finish r))) = cleared (dev (snd r))
    /\ fs (io (snd (finish r))) = fs (io (snd r)).
Proof.
  destruct r as [[[]|s|] w]; cbn.
  - exists [GlfwTerminate]. repeat split; try reflexivity. repeat constructor.
  - exists []. rewrite app_nil_r. repeat split; try reflexivity. constructor.
  - exists []. rewrite app_nil_r. repeat split; try reflexivity. constructor.
Qed.

(** C1, as the code has it.  When the bootstrap goes through, the library
    calls of [main] begin with those of [boot_calls], whose stages are, in
    order: library initialisation, window creation, registration of the
    event callbacks, loader initialisation, capability query.  No call of
    any of these stages follows.  So the callbacks are registered before
    the loader is initialised and before the capabilities are queried. *)
Theorem main_bootstrap_order (E : Env) (fuel : nat) (w : World) :
  init_succeeds E = true ->
  exists rest,
    calls (dev (run (main E fuel) w)) = calls (dev w) ++ boot_calls E ++ rest
    /\ phases (boot_calls E) = coded_order
    /\ Forall (fun c => phase_of c = None) rest.
Proof.
  intros Hok. destruct (main_boots E w Hok) as (wb & Hd & Hm).
  unfold run. rewrite Hm.
  destruct (run_finish (frame_loop E fuel (created_window E) wb))
    as (tail & Ht & Ft & _).
  destruct (frame_loop_emits E fuel (created_window E) wb)
    as (loop & Hl & Fl).
  unfold run in Hl. rewrite Ht, Hl, Hd. cbn [calls].
  exists (state_calls E ++ loop ++ tail).
  split; [now rewrite <- !app_assoc|].
  split; [apply phases_boot_calls|].
  rewrite !Forall_app. repeat split.
  - repeat constructor.
  - eapply Forall_impl; [exact Fl|]. intros c [Hc|Hc]; now destruct c.
  - eapply Forall_impl; [exact Ft|]. now intros c ->.
Qed.

Lemma main_bootstrap_order_desk :
  init_succeeds desk = true
  /\ exists rest,
       calls (dev (run (main desk 10) start))
       = calls (dev start) ++ boot_calls desk ++ rest
       /\ phases (boot_calls desk) = coded_order
       /\ Forall (fun c => phase_of c = None) rest.
Proof.
  split; [reflexivity|].
  apply (main_bootstrap_order desk 10 start). reflexivity.
Defined.

(** C1 as written fails: on a machine where everything succeeds, the stages
    of [main] do not come in the specified order, which has the callbacks
    registered last. *)
Lemma main_order_not_as_specified :
  phases (calls (dev (run (main desk 10) start))) <> specified_order.
Proof. vm_compute. discriminate. Qed.

(** ** The window handle *)

(** C9.  [create_gl_context] never hangs; when it returns, the handle it
    returns is the window GLFW created and is not null; in every other case
    it has called [std::exit] with [EXIT_FAILURE], and then either GLFW did
    not initialise or it created no window. *)
Theorem create_gl_context_handle (E : Env) (fbwd fbht : Z) (title : string)
  (w : World) :
  match fst (create_gl_context E fbwd fbht title w) with
  | Ret pwin =>
      pwin <> NULL /\ pwin = created_window E /\ glfwInit_ok E = true
  | Exit status =>
      status = EXIT_FAILURE
      /\ (glfwInit_ok E = false \/ created_window E = NULL)
  | Hang => False
  end.
Proof.
  destruct (glfwInit_ok E) eqn:H0.
  - destruct (created_window E =? NULL) eqn:H1.
    + destruct (create_gl_context_window_fails E fbwd fbht title w H0 H1)
        as (w1 & -> & _).
      cbn. split; [reflexivity|]. right. now apply Z.eqb_eq.
    + destruct (create_gl_context_ok E fbwd fbht title w H0 H1)
        as (w1 & -> & _).
      cbn. split; [now apply Z.eqb_neq | split; reflexivity].
  - rewrite create_gl_context_glfw_fails by assumption.
    cbn. split; [reflexivity | now left].
Qed.

(** ** Failure of the bootstrap *)

Lemma io_add_calls (l : list call) (w : World) : io (add_calls l w) = io w.
Proof.
  unfold add_calls. revert w.
  induction l as [|c l IH]; intros w; [reflexivity|].
  cbn [fold_left]. rewrite IH. reflexivity.
Qed.

(** C5.  When the bootstrap fails at [f], [main] calls [std::exit] with
    [EXIT_FAILURE], which is not zero, whatever the budget of the loop.  The
    last thing it does to the files and streams is one call of
    [log_to_debug_file] with the message of [f] (so the message is appended
    to the log whenever the log opens); after it only GLFW is shut down.
    Its library calls are those up to the failure and the shutdown: none of
    them belongs to the frame loop, and GLFW is initialised, the window
    created and GLEW initialised at most once each. *)
Theorem main_exits_on_failure (E : Env) (f : init_failure) (fuel : nat)
  (w : World) :
  first_failure E = Some f ->
  exists w1,
    main E fuel w
    = (Exit EXIT_FAILURE,
       add_calls (calls_after_failure E f)
         (log_result E g_logfilename (failure_message E f) w1))
    /\ EXIT_FAILURE <> 0
    /\ calls (dev w1) = calls (dev w) ++ calls_before_failure E f
    /\ io (run (main E fuel) w)
       = io (log_result E g_logfilename (failure_message E f) w1)
    /\ calls (dev (run (main E fuel) w))
       = calls (dev w) ++ calls_before_failure E f ++ calls_after_failure E f
    /\ count_calls is_frame_call
         (calls_before_failure E f ++ calls_after_failure E f) = O
    /\ (count_calls is_glfw_init
          (calls_before_failure E f ++ calls_after_failure E f) <= 1)%nat
    /\ (count_calls is_create_window
          (calls_before_failure E f ++ calls_after_failure E f) <= 1)%nat
    /\ (count_calls is_glew_init
          (calls_before_failure E f ++ calls_after_failure E f) <= 1)%nat.
Proof.
  intros Hf. destruct (main_fails E f fuel w Hf) as (w1 & Hm & Hc & _).
  exists w1. split; [exact Hm|]. split; [discriminate|].
  split; [exact Hc|].
  unfold run. rewrite Hm. cbn [snd].
  split; [apply io_add_calls|].
  split.
  { rewrite dev_add_calls, dev_log_result. cbn [calls].
    now rewrite Hc, <- app_assoc. }
  destruct f; repeat split; vm_compute; first [reflexivity | lia].
Qed.

Lemma main_exits_on_failure_old_driver :
  first_failure old_driver = Some NoGL45
  /\ exists w1,
       main old_driver 10 start
       = (Exit EXIT_FAILURE,
          add_calls (calls_after_failure old_driver NoGL45)
            (log_result old_driver g_logfilename
               (failure_message old_driver NoGL45) w1))
       /\ EXIT_FAILURE <> 0
       /\ calls (dev w1)
          = calls (dev start) ++ calls_before_failure old_driver NoGL45
       /\ io (run (main old_driver 10) start)
          = io (log_result old_driver g_logfilename
                  (failure_message old_driver NoGL45) w1)
       /\ calls (dev (run (main old_driver 10) start))
          = calls (dev start) ++ calls_before_failure old_driver NoGL45
            ++ calls_after_failure old_driver NoGL45
       /\ count_calls is_frame_call
            (calls_before_failure old_driver NoGL45
             ++ calls_after_failure old_driver NoGL45) = O
       /\ (count_calls is_glfw_init
             (calls_before_failure old_driver NoGL45
              ++ calls_after_failure old_driver NoGL45) <= 1)%nat
       /\ (count_calls is_create_window
             (calls_before_failure old_driver NoGL45
              ++ calls_after_failure old_driver NoGL45) <= 1)%nat
       /\ (count_calls is_glew_init
             (calls_before_failure old_driver NoGL45
              ++ calls_after_failure old_driver NoGL45) <= 1)%nat.
Proof.
  split; [reflexivity|].
  apply (main_exits_on_failure old_driver NoGL45 10 start). reflexivity.
Defined.

(** ** The log only grows *)

#[local] Hint Resolve deliver_grows frame_loop_grows : prims.

Lemma after_bootstrap_grows (E : Env) (fuel : nat) (w : World) :
  log_grows (run (create_log_file E) w) (run (main E fuel) w).
Proof.
  unfold run, main. rewrite bind_unfold, create_log_file_eq.
  cbv beta iota. cbn [snd].
  match goal with
  | |- log_grows ?w0 (snd (?rest ?w0)) =>
      cut (always log_grows rest); [intros H; exact (H w0)|]
  end.
  always_split.
Qed.

(** C7, as the code has it.  A call of [log_to_debug_file] makes one attempt
    to open the file in append mode.  If the stream opens, it inserts each
    value and a blank, then the line end, and closes the stream, and the file
    then holds what it held followed by that text, which has one line end
    more than the values together; if not, the file holds what it held.  No
    other file changes.  And from the end of [create_log_file] to the end of
    [main], however it ends, every file only ever grows at its end. *)
Theorem log_to_debug_file_appends (E : Env) (name : string)
  (args : list printable) (w : World) :
  let w' := run (log_to_debug_file E name args) w in
  let opened := open_ok E (opens (io w)) in
  fileops (io w')
  = fileops (io w)
    ++ (if opened
        then FOpen name ModeApp true
             :: value_writes name args ++ [FWrite name endl; FClose name]
        else [FOpen name ModeApp false])
  /\ file_content name w'
     = file_content name w
       +:+ (if opened then log_line args else EmptyString)
  /\ delete name (fs (io w')) = delete name (fs (io w))
  /\ count_newlines (log_line args) = S (newlines_in args)
  /\ forall fuel w0,
       log_grows (run (create_log_file E) w0) (run (main E fuel) w0).
Proof.
  cbv zeta. unfold run. rewrite log_to_debug_file_eq. cbn [snd].
  unfold log_result, logged, log_failed, file_content.
  destruct (open_ok E (opens (io w))); cbn [io fs fileops on_io].
  - rewrite lookup_insert_eq, delete_insert_eq. cbn [default].
    repeat split; try reflexivity.
    + apply count_newlines_log_line.
    + apply after_bootstrap_grows.
  - rewrite append_nil_r. repeat split; try reflexivity.
    + apply count_newlines_log_line.
    + apply after_bootstrap_grows.
Qed.

(** C7 as written fails: on a machine where everything succeeds, the log
    grows by more lines than there are calls of [log_to_debug_file], because
    a message of the program ends in a line end of its own. *)
Lemma log_lines_exceed_log_calls :
  let w' := run (main desk 10) start in
  let appends :=
    length (List.filter
              (fun o => match o with FOpen _ ModeApp true => true | _ => false end)
              (fileops (io w'))) in
  let lines :=
    (count_newlines (file_content g_logfilename w')
     - count_newlines (log_header desk))%nat in
  appends = 28%nat /\ lines = 29%nat /\ lines <> appends.
Proof. vm_compute. repeat split; discriminate. Qed.

(** ** The clear colour *)

Lemma filter_none (f : call -> bool) (l : list call) :
  Forall (fun c => f c = false) l -> List.filter f l = [].
Proof.
  induction 1 as [|c l Hc _ IH]; [reflexivity|].
  cbn. now rewrite Hc.
Qed.

Lemma boot_calls_no_clear_color (E : Env) :
  List.filter is_clear_color (boot_calls E) = [].
Proof.
  unfold boot_calls, query_calls.
  rewrite !List.filter_app. cbn [List.filter is_clear_color].
  rewrite (filter_none _ (map _ _)).
  - reflexivity.
  - apply Forall_forall. intros c Hc.
    apply list_elem_of_In, in_map_iff in Hc as (i & <- & _). reflexivity.
Qed.

Lemma draw_steady p : always steady (draw p).
Proof. unfold draw. always_split. Qed.

Lemma update_steady (E : Env) p : always steady (update E p).
Proof.
  unfold update. apply always_poll; [typeclasses eauto| |apply deliver_steady].
  prim_solve.
Qed.

Lemma count_calls_app (f : call -> bool) (l1 l2 : list call) :
  count_calls f (l1 ++ l2) = (count_calls f l1 + count_calls f l2)%nat.
Proof. unfold count_calls. now rewrite List.filter_app, length_app. Qed.

Lemma count_calls_none (f : call -> bool) (l : list call) :
  Forall (fun c => f c = false) l -> count_calls f l = O.
Proof. intros H. unfold count_calls. now rewrite filter_none. Qed.

(** The bootstrap and [init_gl_state] make none of the calls of the loop. *)
Lemma boot_calls_no_frame_call (E : Env) :
  Forall (fun c => is_frame_call c = false) (boot_calls E ++ state_calls E).
Proof.
  unfold boot_calls, query_calls, state_calls.
  rewrite !Forall_app. repeat split; try (repeat constructor).
  - apply Forall_forall. intros c Hc.
    apply list_elem_of_In, in_map_iff in Hc as (i & <- & _). reflexivity.
Qed.

(** [k] passes of the loop, counted: [k] polls, [k] clearings with the clear
    colour the passes began with, and in the trace [k] calls each of
    [glClear], [glfwSwapBuffers] and [glfwPollEvents], with no call of
    [glClearColor] among them. *)
Lemma frames_counted (E : Env) (p : GLFWwindow) (k : nat) (w : World) :
  polls (dev (frames E p k w)) = (polls (dev w) + k)%nat
  /\ clear_color (dev (frames E p k w)) = clear_color (dev w)
  /\ cleared (dev (frames E p k w))
     = cleared (dev w) ++ repeat (clear_color (dev w)) k
  /\ exists new,
       calls (dev (frames E p k w)) = calls (dev w) ++ new
       /\ Forall (fun c => is_clear_color c = false) new
       /\ count_calls is_clear new = k
       /\ count_calls is_swap new = k
       /\ count_calls is_poll new = k.
Proof.
  induction k as [|k (IHp & IHc & IHcl & new & IHn & IHf & IH1 & IH2 & IH3)].
  - cbn. rewrite Nat.add_0_r, app_nil_r. repeat split.
    exists []. rewrite app_nil_r. repeat split. constructor.
  - destruct (frame_step_calls E p (frames E p k w))
      as (cb & Hc & Fcb & Hcl & Hp & Hcc).
    change (frame_step E p (frames E p k w)) with (frames E p (S k) w) in *.
    split; [rewrite Hp, IHp; lia|].
    split; [congruence|].
    split.
    { rewrite Hcl, IHcl, IHc. cbn [repeat].
      rewrite repeat_cons, app_assoc. reflexivity. }
    assert (Hq : forall f : call -> bool,
               (forall c, is_callback_call c -> f c = false) ->
               count_calls f cb = O).
    { intros f Hf. apply count_calls_none.
      eapply Forall_impl; [exact Fcb|]. exact Hf. }
    exists (new ++ frame_calls p ++ cb).
    split; [rewrite Hc, IHn; now rewrite <- !app_assoc|].
    split.
    { rewrite !Forall_app. repeat split; [assumption|repeat constructor|].
      eapply Forall_impl; [exact Fcb|]. now intros []. }
    rewrite !count_calls_app, IH1, IH2, IH3.
    rewrite !Hq by now intros [].
    cbn. repeat split; lia.
Qed.

(** However the loop ends, it stops after some number of whole passes, at
    most its budget, with at most the test of the close flag after them. *)
Lemma frame_loop_stops (E : Env) (p : GLFWwindow) (fuel : nat) :
  forall w,
    exists k tail,
      (k <= fuel)%nat
      /\ snd (frame_loop E fuel p w) = add_calls tail (frames E p k w)
      /\ Forall (fun c => c = GlfwWindowShouldClose p) tail.
Proof.
  induction fuel as [|fuel IH]; intros w.
  - exists O, []. repeat split; [lia|constructor].
  - rewrite frame_loop_unfold. destruct (should_close (dev w)).
    + exists O, [GlfwWindowShouldClose p].
      repeat split; [lia|repeat constructor].
    + destruct (IH (frame_step E p w)) as (k & tail & Hk & Hs & Ft).
      exists (S k), tail. rewrite frames_shift.
      repeat split; [lia|assumption|assumption].
Qed.

Lemma finish_polls (r : outcome unit * World) :
  polls (dev (snd (finish r))) = polls (dev (snd r)).
Proof. now destruct r as [[[]|s|] w]. Qed.

(** C10.  [init_gl_state] leaves green as the clear colour.  [draw] clears
    the colour buffer once, with the clear colour it finds, and leaves that
    colour as it is; [update] and the delivery of any event, hence every
    callback, neither set the clear colour nor clear; so one pass of the
    loop clears exactly once, with the clear colour it began with, and polls
    once.  In a run of [main], however it ends, [glClearColor] is called
    once, with (0, 1, 0, 1), when the bootstrap goes through, and not at all
    when it does not; the run makes as many passes as it polls, each with
    one call of [glClear], of [glfwSwapBuffers] and of [glfwPollEvents]; and
    the colour buffer is cleared once in every pass, to green each time, and
    at no other time. *)
Theorem clear_color_is_green (E : Env) (fuel : nat) (w : World) :
  let w' := run (main E fuel) w in
  let passes := (polls (dev w') - polls (dev w))%nat in
  (forall p w0, clear_color (dev (run (init_gl_state E p) w0)) = green)
  /\ (forall p w0,
        clear_color (dev (run (draw p) w0)) = clear_color (dev w0)
        /\ cleared (dev (run (draw p) w0))
           = cleared (dev w0) ++ [clear_color (dev w0)])
  /\ (forall p w0,
        clear_color (dev (run (update E p) w0)) = clear_color (dev w0)
        /\ cleared (dev (run (update E p) w0)) = cleared (dev w0))
  /\ (forall ev w0,
        clear_color (dev (run (deliver E ev) w0)) = clear_color (dev w0)
        /\ cleared (dev (run (deliver E ev) w0)) = cleared (dev w0))
  /\ (forall p, always steady (draw p))
  /\ (forall p, always steady (update E p))
  /\ (forall ev, always steady (deliver E ev))
  /\ (forall p w0,
        clear_color (dev (frame_step E p w0)) = clear_color (dev w0)
        /\ cleared (dev (frame_step E p w0))
           = cleared (dev w0) ++ [clear_color (dev w0)]
        /\ polls (dev (frame_step E p w0)) = S (polls (dev w0)))
  /\ exists new,
       calls (dev w') = calls (dev w) ++ new
       /\ List.filter is_clear_color new
          = (if init_succeeds E then [GlClearColor 0 1 0 1] else [])
       /\ count_calls is_clear new = passes
       /\ count_calls is_swap new = passes
       /\ count_calls is_poll new = passes
       /\ (passes <= fuel)%nat
       /\ cleared (dev w') = cleared (dev w) ++ repeat green passes.
Proof.
  intros w' passes.
  split; [reflexivity|].
  split; [intros p w0; split; reflexivity|].
  assert (Hdel : forall ev w0,
             clear_color (dev (run (deliver E ev) w0)) = clear_color (dev w0)
             /\ cleared (dev (run (deliver E ev) w0)) = cleared (dev w0)).
  { intros ev w0.
    destruct (deliver_handled E ev w0) as (_ & Hcc & Hcl & _). now split. }
  split.
  { intros p w0.
    change (run (update E p) w0)
      with (run (for_each (events E (polls (dev w0))) (deliver E))
              (count_poll (add_call GlfwPollEvents w0))).
    match goal with
    | |- context [run (for_each ?l ?b) ?w1] =>
        destruct (always_for_each handled l b (deliver_handled E) w1)
          as (_ & Hcc & Hcl & _)
    end.
    rewrite Hcc, Hcl. split; reflexivity. }
  split; [exact Hdel|].
  split; [apply draw_steady|].
  split; [apply update_steady|].
  split; [apply deliver_steady|].
  split.
  { intros p w0.
    destruct (frame_step_calls E p w0) as (cb & _ & _ & Hcl & Hp & Hcc).
    auto. }
  assert (H : exists new k,
             calls (dev w') = calls (dev w) ++ new
             /\ List.filter is_clear_color new
                = (if init_succeeds E then [GlClearColor 0 1 0 1] else [])
             /\ count_calls is_clear new = k
             /\ count_calls is_swap new = k
             /\ count_calls is_poll new = k
             /\ (k <= fuel)%nat
             /\ polls (dev w') = (polls (dev w) + k)%nat
             /\ cleared (dev w') = cleared (dev w) ++ repeat green k).
  { subst w'. destruct (init_succeeds E) eqn:Hok.
    - destruct (main_boots E w Hok) as (wb & Hd & Hm).
      unfold run. rewrite Hm.
      set (r := frame_loop E fuel (created_window E) wb).
      destruct (run_finish r) as (tail & Ht & Ft & _ & Hcl & _).
      rewrite Ht, Hcl, (finish_polls r). subst r.
      destruct (frame_loop_stops E (created_window E) fuel wb)
        as (k & test & Hk & -> & Ftest).
      rewrite dev_add_calls. cbn [calls cleared polls].
      destruct (frames_counted E (created_window E) k wb)
        as (Hp & _ & Hcl' & loop & Hl & Fl & H1 & H2 & H3).
      rewrite Hl, Hp, Hcl', Hd. cbn [calls cleared polls clear_color].
      exists ((boot_calls E ++ state_calls E) ++ loop ++ test ++ tail), k.
      split; [now rewrite <- !app_assoc|].
      assert (Fb := boot_calls_no_frame_call E).
      assert (Ftt : Forall (fun c => is_frame_call c = true
                                     /\ is_clear c = false
                                     /\ is_swap c = false
                                     /\ is_poll c = false
                                     \/ c = GlfwTerminate) (test ++ tail)).
      { rewrite Forall_app. split.
        - eapply Forall_impl; [exact Ftest|]. intros c ->. left. now cbn.
        - eapply Forall_impl; [exact Ft|]. intros c ->. now right. }
      split.
      { rewrite !List.filter_app, boot_calls_no_clear_color.
        rewrite (filter_none _ loop) by exact Fl.
        rewrite <- List.filter_app.
        rewrite (filter_none _ (test ++ tail)).
        - reflexivity.
        - eapply Forall_impl; [exact Ftt|].
          intros c [(Hc & _)| ->]; [now destruct c|reflexivity]. }
      assert (Hq : forall f : call -> bool,
                 (forall c, f c = true -> is_frame_call c = true) ->
                 f GlfwTerminate = false ->
                 (forall c, is_frame_call c = true /\ is_clear c = false
                            /\ is_swap c = false /\ is_poll c = false ->
                            f c = false) ->
                 count_calls f
                   ((boot_calls E ++ state_calls E) ++ loop ++ test ++ tail)
                 = count_calls f loop).
      { intros f Hf Hterm Htest.
        rewrite (count_calls_app f (boot_calls E ++ state_calls E)).
        rewrite (count_calls_none f (boot_calls E ++ state_calls E)).
        - rewrite (count_calls_app f loop).
          rewrite (count_calls_none f (test ++ tail)); [lia|].
          eapply Forall_impl; [exact Ftt|].
          intros c [Hc| ->]; [now apply Htest|assumption].
        - eapply Forall_impl; [exact Fb|].
          intros c Hc. destruct (f c) eqn:Hfc; [|reflexivity].
          apply Hf in Hfc. congruence. }
      rewrite !Hq; try reflexivity;
        try (now intros []); try (intros c (_ & ? & ? & ?); assumption).
      repeat split; assumption.
    - destruct (first_failure E) as [f|] eqn:Hf.
      2:{ apply first_failure_none in Hf. congruence. }
      destruct (main_fails E f fuel w Hf) as (w1 & Hm & Hc & _ & Hcl & Hp).
      unfold run. rewrite Hm. cbn [snd].
      rewrite dev_add_calls, dev_log_result. cbn [calls cleared polls].
      rewrite Hc, Hcl, Hp.
      exists (calls_before_failure E f ++ calls_after_failure E f), O.
      split; [now rewrite <- app_assoc|].
      split; [destruct f; reflexivity|].
      split; [destruct f; reflexivity|].
      split; [destruct f; reflexivity|].
      split; [destruct f; reflexivity|].
      split; [lia|].
      split; [lia|]. cbn. now rewrite app_nil_r. }
  destruct H as (new & k & Hc & Hf & H1 & H2 & H3 & Hk & Hp & Hcl).
  assert (Hpasses : passes = k) by (subst passes; rewrite Hp; lia).
  exists new. rewrite Hpasses. repeat split; assumption.
Qed.

(** * Further properties of the code *)

(** ** The loader *)

(** X1.  [init_gl_loader] always returns to its caller, and returns [GL_TRUE]
    exactly when GLEW initialised and the driver supports GL 4.5.  It calls
    [glewInit] once, then asks for the error string, or for the version
    string, or for nothing; it logs two lines on success and one on either
    failure; and it leaves the window and the GL state alone. *)
Theorem init_gl_loader_result (E : Env) (w : World) :
  let r := init_gl_loader E w in
  let glew_ok := GLEW_OK =? glewInit_result E in
  fst r = Ret (if glew_ok && GLEW_VERSION_4_5 E then GL_TRUE else GL_FALSE)
  /\ dev (snd r)
     = dev (add_calls
              (GlewInit
               :: (if glew_ok
                   then if GLEW_VERSION_4_5 E then [GlewGetString] else []
                   else [GlewGetErrorString (glewInit_result E)]))
              w)
  /\ opens (io (snd r))
     = (opens (io w)
        + (if glew_ok && GLEW_VERSION_4_5 E then 2 else 1))%nat.
Proof.
  cbv zeta. rewrite init_gl_loader_eq.
  destruct (GLEW_OK =? glewInit_result E); [destruct (GLEW_VERSION_4_5 E)|];
    cbn [negb andb fst snd]; rewrite dev_add_calls; dev_norm;
    (split; [reflexivity|]); (split; [now rewrite <- ?app_assoc|]);
    unfold log_result;
    repeat match goal with
    | |- context [open_ok E ?n] => destruct (open_ok E n)
    end; cbn; lia.
Qed.

(** ** The wiring of the callbacks *)

(** X2.  When [create_gl_context] returns, every slot of GLFW holds the callback
    the program wrote for it, whatever was installed before, the close flag
    of the new window is down, and the GL state is as it was. *)
Theorem create_gl_context_wires (E : Env) (fbwd fbht : Z) (title : string)
  (w : World) :
  glfwInit_ok E = true ->
  created_window E <> NULL ->
  let w' := run (create_gl_context E fbwd fbht title) w in
  wired w'
  /\ should_close (dev w') = false
  /\ (polls (dev w'), clear_color (dev w'), viewport (dev w'),
      cleared (dev w'))
     = (polls (dev w), clear_color (dev w), viewport (dev w),
        cleared (dev w)).
Proof.
  intros H0 H1. apply Z.eqb_neq in H1. cbv zeta. unfold run.
  destruct (create_gl_context_ok E fbwd fbht title w H0 H1)
    as (w1 & -> & Hd).
  cbn [snd]. unfold wired. rewrite Hd. cbn [handlers should_close polls
    clear_color viewport cleared].
  repeat split; reflexivity.
Qed.

Lemma create_gl_context_wires_desk :
  glfwInit_ok desk = true
  /\ created_window desk <> NULL
  /\ wired ready
  /\ should_close (dev ready) = false
  /\ (polls (dev ready), clear_color (dev ready), viewport (dev ready),
      cleared (dev ready))
     = (polls (dev start), clear_color (dev start), viewport (dev start),
        cleared (dev start)).
Proof.
  assert (H0 : glfwInit_ok desk = true) by reflexivity.
  assert (H1 : created_window desk <> NULL) by discriminate.
  split; [exact H0|]. split; [exact H1|].
  exact (create_gl_context_wires desk 2400 1350 main_title start H0 H1).
Defined.

(** ** What a poll does to the window *)

Section Wired.

Variable E : Env.

Lemma wired_same_handlers (w w' : World) :
  handlers (dev w') = handlers (dev w) -> wired w -> wired w'.
Proof. unfold wired. now intros ->. Qed.

(** One event, delivered through the program's callbacks. *)
Lemma deliver_wired (ev : event) (w : World) :
  wired w ->
  deliver E ev w = (Ret tt, run (deliver E ev) w)
  /\ handlers (dev (run (deliver E ev) w)) = handlers (dev w)
  /\ should_close (dev (run (deliver E ev) w))
     = should_close (dev w) || closing ev
  /\ viewport (dev (run (deliver E ev) w))
     = match ev with
       | EvFramebufferSize width height => (0, 0, width, height)
       | _ => viewport (dev w)
       end.
Proof.
  intros (He & Hf & Hk & Hb & Hp & Hs).
  split.
  { destruct (returns_eq (deliver E ev) w (deliver_returns E ev)) as [[] H].
    exact H. }
  unfold run, deliver. destruct ev; rewrite ?He, ?Hf, ?Hk, ?Hb, ?Hp, ?Hs.
  - unfold key_cb, debug_print, closing.
    destruct (GLFW_KEY_ESCAPE =? key), (GLFW_PRESS =? action),
      (GLFW_REPEAT =? action), (GLFW_RELEASE =? action), (DEBUG E);
      cbn; rewrite ?orb_true_r, ?orb_false_r; repeat split; reflexivity.
  - unfold mousebutton_cb, debug_print.
    destruct (button =? GLFW_MOUSE_BUTTON_LEFT),
      (button =? GLFW_MOUSE_BUTTON_RIGHT), (action =? GLFW_PRESS),
      (action =? GLFW_RELEASE), (DEBUG E);
      cbn; rewrite ?orb_false_r; repeat split; reflexivity.
  - unfold mousepos_cb, debug_print. destruct (DEBUG E);
      cbn; rewrite ?orb_false_r; repeat split; reflexivity.
  - unfold mousescroll_cb, debug_print. destruct (DEBUG E);
      cbn; rewrite ?orb_false_r; repeat split; reflexivity.
  - cbn. rewrite orb_false_r. repeat split; reflexivity.
  - cbn. rewrite orb_true_r. repeat split; reflexivity.
  - unfold glfw_error_cb. rewrite bind_unfold, log_to_debug_file_eq.
    cbn [snd ret]. rewrite dev_log_result, orb_false_r.
    repeat split; reflexivity.
Qed.

Lemma run_for_each_cons {A} (body : A -> M unit) (x : A) (l : list A)
  (w : World) :
  body x w = (Ret tt, run (body x) w) ->
  for_each (x :: l) body w = for_each l body (run (body x) w).
Proof. intros H. cbn [for_each]. now rewrite bind_unfold, H. Qed.

(** A batch of events. *)
Lemma batch_wired (evs : list event) :
  forall w, wired w ->
    for_each evs (deliver E) w = (Ret tt, run (for_each evs (deliver E)) w)
    /\ handlers (dev (run (for_each evs (deliver E)) w)) = handlers (dev w)
    /\ should_close (dev (run (for_each evs (deliver E)) w))
       = should_close (dev w) || existsb closing evs
    /\ viewport (dev (run (for_each evs (deliver E)) w))
       = match last_resize evs with
         | Some (width, height) => (0, 0, width, height)
         | None => viewport (dev w)
         end.
Proof.
  induction evs as [|ev evs IH]; intros w Hw.
  - cbn. rewrite orb_false_r. repeat split; reflexivity.
  - destruct (deliver_wired ev w Hw) as (Hr & Hh & Hc & Hv).
    assert (Hw' : wired (run (deliver E ev) w))
      by (eapply wired_same_handlers; eauto).
    destruct (IH _ Hw') as (Hr' & Hh' & Hc' & Hv').
    assert (Hcons : for_each (ev :: evs) (deliver E) w
                    = for_each evs (deliver E) (run (deliver E ev) w))
      by (apply run_for_each_cons, Hr).
    assert (Hrun : run (for_each (ev :: evs) (deliver E)) w
                   = run (for_each evs (deliver E)) (run (deliver E ev) w))
      by (unfold run at 1 2; now rewrite Hcons).
    rewrite Hrun, Hcons.
    split; [exact Hr'|]. split; [congruence|].
    split.
    + rewrite Hc', Hc. cbn [existsb]. now rewrite orb_assoc.
    + rewrite Hv', Hv. cbn [last_resize].
      destruct (last_resize evs) as [[x y]|]; [reflexivity|].
      now destruct ev.
Qed.

End Wired.

Lemma update_batch (E : Env) (p : GLFWwindow) (w : World) :
  run (update E p) w
  = run (for_each (events E (polls (dev w))) (deliver E))
      (count_poll (add_call GlfwPollEvents w)).
Proof. reflexivity. Qed.

(** X3.  After [update], the close flag is up exactly if it was up before or the
    polled batch holds a press of ESC or a close request: no other key, no
    mouse event and no resize ends the loop, and nothing lowers the flag.
    The poll is counted and the callbacks stay in their slots. *)
Theorem update_close_flag (E : Env) (p : GLFWwindow) (w : World) :
  wired w ->
  should_close (dev (run (update E p) w))
  = should_close (dev w) || existsb closing (events E (polls (dev w)))
  /\ polls (dev (run (update E p) w)) = S (polls (dev w))
  /\ wired (run (update E p) w).
Proof.
  intros Hw. rewrite update_batch.
  set (w0 := count_poll (add_call GlfwPollEvents w)).
  assert (Hw0 : wired w0) by exact Hw.
  destruct (batch_wired E (events E (polls (dev w))) w0 Hw0)
    as (_ & Hh & Hc & _).
  destruct (always_for_each handled (events E (polls (dev w))) (deliver E)
              (deliver_handled E) w0) as (_ & _ & _ & Hp).
  split; [exact Hc|]. split; [exact Hp|].
  eapply wired_same_handlers; [exact Hh | exact Hw0].
Qed.

Lemma update_close_flag_ready :
  wired ready
  /\ should_close (dev (run (update desk 4096) ready))
     = should_close (dev ready)
       || existsb closing (events desk (polls (dev ready)))
  /\ polls (dev (run (update desk 4096) ready)) = S (polls (dev ready))
  /\ wired (run (update desk 4096) ready).
Proof.
  assert (Hw : wired ready) by (repeat split; reflexivity).
  split; [exact Hw|].
  exact (update_close_flag desk 4096 ready Hw).
Defined.

(** X4.  After [update], the viewport is the whole framebuffer of the last
    resize in the polled batch, with its origin at (0, 0); without a resize
    in the batch it is what it was. *)
Theorem update_viewport (E : Env) (p : GLFWwindow) (w : World) :
  wired w ->
  viewport (dev (run (update E p) w))
  = match last_resize (events E (polls (dev w))) with
    | Some (width, height) => (0, 0, width, height)
    | None => viewport (dev w)
    end.
Proof.
  intros Hw. rewrite update_batch.
  set (w0 := count_poll (add_call GlfwPollEvents w)).
  assert (Hw0 : wired w0) by exact Hw.
  destruct (batch_wired E (events E (polls (dev w))) w0 Hw0)
    as (_ & _ & _ & Hv).
  exact Hv.
Qed.

Lemma update_viewport_resized :
  let w := run (update desk 4096) ready in
  wired w
  /\ viewport (dev (run (update desk 4096) w))
     = match last_resize (events desk (polls (dev w))) with
       | Some (width, height) => (0, 0, width, height)
       | None => viewport (dev w)
       end.
Proof.
  assert (Hw : wired (run (update desk 4096) ready))
    by (repeat split; reflexivity).
  split; [exact Hw|].
  exact (update_viewport desk 4096 (run (update desk 4096) ready) Hw).
Defined.

(** ** From the first frame to the end of [main] *)

Lemma closing_within_succ (E : Env) (from n : nat) :
  closing_within E from (S n)
  = closing_within E from n || existsb closing (events E (from + n)).
Proof.
  unfold closing_within. rewrite seq_S, existsb_app. cbn.
  now rewrite orb_false_r.
Qed.

Lemma closing_within_before (E : Env) (from k j : nat) :
  (j <= k)%nat ->
  closing_within E from k = false -> closing_within E from j = false.
Proof.
  intros Hj. induction Hj as [|k Hj IH]; [easy|].
  rewrite closing_within_succ. intros H.
  apply orb_false_iff in H as [H _]. auto.
Qed.

Section Run.

Variable E : Env.
Variable p : GLFWwindow.

Lemma frame_step_wired (w : World) :
  wired w ->
  wired (frame_step E p w)
  /\ polls (dev (frame_step E p w)) = S (polls (dev w))
  /\ should_close (dev (frame_step E p w))
     = should_close (dev w) || existsb closing (events E (polls (dev w)))
  /\ clear_color (dev (frame_step E p w)) = clear_color (dev w)
  /\ cleared (dev (frame_step E p w))
     = cleared (dev w) ++ [clear_color (dev w)].
Proof.
  intros Hw.
  destruct (frame_step_calls E p w) as (cb & _ & _ & Hcl & Hp & Hcc).
  rewrite frame_step_eq in *.
  match goal with
  | |- context [run (for_each ?l ?b) ?w0] =>
      assert (Hw0 : wired w0) by exact Hw;
      destruct (batch_wired E l w0 Hw0) as (_ & Hh & Hc & _)
  end.
  split; [eapply wired_same_handlers; [exact Hh | exact Hw0]|].
  repeat split; assumption.
Qed.

Lemma frames_wired (j : nat) (w : World) :
  wired w ->
  wired (frames E p j w)
  /\ polls (dev (frames E p j w)) = (polls (dev w) + j)%nat
  /\ should_close (dev (frames E p j w))
     = should_close (dev w) || closing_within E (polls (dev w)) j
  /\ clear_color (dev (frames E p j w)) = clear_color (dev w)
  /\ cleared (dev (frames E p j w))
     = cleared (dev w) ++ repeat (clear_color (dev w)) j.
Proof.
  intros Hw. induction j as [|j (IHw & IHp & IHc & IHcc & IHcl)].
  - cbn. rewrite Nat.add_0_r, orb_false_r, app_nil_r. auto.
  - change (frames E p (S j) w) with (frame_step E p (frames E p j w)).
    destruct (frame_step_wired _ IHw) as (Hw' & Hp & Hc & Hcc & Hcl).
    split; [exact Hw'|].
    split; [rewrite Hp, IHp; lia|].
    split; [rewrite Hc, IHc, IHp, closing_within_succ; now rewrite orb_assoc|].
    split; [congruence|].
    rewrite Hcl, IHcl, IHcc. cbn [repeat].
    rewrite repeat_cons, app_assoc. reflexivity.
Qed.

Lemma frame_loop_returns_after (k : nat) :
  forall w fuel,
    (forall j, (j < k)%nat -> should_close (dev (frames E p j w)) = false) ->
    should_close (dev (frames E p k w)) = true ->
    (k < fuel)%nat ->
    frame_loop E fuel p w
    = (Ret tt, add_call (GlfwWindowShouldClose p) (frames E p k w)).
Proof.
  induction k as [|k IH]; intros w fuel Hdown Hup Hfuel;
    (destruct fuel as [|fuel]; [lia|]); rewrite frame_loop_unfold.
  - cbn in Hup. now rewrite Hup.
  - change (should_close (dev w))
      with (should_close (dev (frames E p O w))).
    rewrite (Hdown O) by lia.
    rewrite frames_shift in *.
    apply IH; [|assumption|lia].
    intros j Hj. rewrite <- frames_shift. apply Hdown. lia.
Qed.

(** The loop never calls [std::exit]. *)
Lemma frame_loop_outcome (fuel : nat) :
  forall w,
    fst (frame_loop E fuel p w) = Ret tt \/ fst (frame_loop E fuel p w) = Hang.
Proof.
  induction fuel as [|fuel IH]; intros w; [now right|].
  rewrite frame_loop_unfold.
  destruct (should_close (dev w)); [now left | apply IH].
Qed.

End Run.

Lemma booted_wired (E : Env) (w wb : World) :
  handlers (dev wb) = context_handlers ++ handlers (dev w) -> wired wb.
Proof. intros H. unfold wired. rewrite H. repeat split; reflexivity. Qed.

(** X5.  When the bootstrap goes through and the first press of ESC or close
    request arrives in the poll of pass [k + 1], [main], given room for more
    passes than that, returns 0: it has cleared the colour buffer to green
    and polled in each of the [k + 1] passes and in no other, and leaves the
    close flag up. *)
Theorem main_returns_on_closing_event (E : Env) (w : World) (k fuel : nat) :
  init_succeeds E = true ->
  closing_within E (polls (dev w)) k = false ->
  existsb closing (events E (polls (dev w) + k)) = true ->
  (S k < fuel)%nat ->
  fst (main E fuel w) = Ret 0
  /\ polls (dev (run (main E fuel) w)) = (polls (dev w) + S k)%nat
  /\ cleared (dev (run (main E fuel) w))
     = cleared (dev w) ++ repeat green (S k)
  /\ should_close (dev (run (main E fuel) w)) = true.
Proof.
  intros Hok Hquiet Hclose Hfuel.
  destruct (main_boots E w Hok) as (wb & Hd & Hm).
  assert (Hw : wired wb) by (apply (booted_wired E w); now rewrite Hd).
  assert (Hf : forall j,
             should_close (dev (frames E (created_window E) j wb))
             = closing_within E (polls (dev w)) j
             /\ polls (dev (frames E (created_window E) j wb))
                = (polls (dev w) + j)%nat
             /\ cleared (dev (frames E (created_window E) j wb))
                = cleared (dev w) ++ repeat green j).
  { intros j.
    destruct (frames_wired E (created_window E) j wb Hw)
      as (_ & Hp & Hc & _ & Hcl).
    rewrite Hc, Hp, Hcl, Hd. cbn. auto. }
  assert (Hloop : frame_loop E fuel (created_window E) wb
                  = (Ret tt,
                     add_call (GlfwWindowShouldClose (created_window E))
                       (frames E (created_window E) (S k) wb))).
  { apply frame_loop_returns_after; [| |exact Hfuel].
    - intros j Hj. destruct (Hf j) as (-> & _).
      apply (closing_within_before E _ k); [lia | exact Hquiet].
    - destruct (Hf (S k)) as (-> & _).
      now rewrite closing_within_succ, Hquiet, Hclose. }
  unfold run. rewrite Hm, Hloop. cbn [finish fst snd].
  destruct (Hf (S k)) as (Hc & Hp & Hcl).
  dev_norm. rewrite Hp, Hcl, Hc.
  rewrite closing_within_succ, Hquiet, Hclose. auto.
Qed.

Lemma main_returns_on_closing_event_desk :
  init_succeeds desk = true
  /\ closing_within desk (polls (dev start)) 2 = false
  /\ existsb closing (events desk (polls (dev start) + 2)) = true
  /\ (3 < 10)%nat
  /\ fst (main desk 10 start) = Ret 0
  /\ polls (dev (run (main desk 10) start)) = (polls (dev start) + 3)%nat
  /\ cleared (dev (run (main desk 10) start))
     = cleared (dev start) ++ repeat green 3
  /\ should_close (dev (run (main desk 10) start)) = true.
Proof.
  assert (H0 : init_succeeds desk = true) by reflexivity.
  assert (H1 : closing_within desk (polls (dev start)) 2 = false)
    by reflexivity.
  assert (H2 : existsb closing (events desk (polls (dev start) + 2)) = true)
    by reflexivity.
  assert (H3 : (3 < 10)%nat) by lia.
  split; [exact H0|]. split; [exact H1|]. split; [exact H2|].
  split; [exact H3|].
  exact (main_returns_on_closing_event desk start 2 10 H0 H1 H2 H3).
Defined.

(** X7.  [main] ends in one of three ways, and the bootstrap decides which: it
    exits, with [EXIT_FAILURE], exactly when the bootstrap fails; when the
    bootstrap goes through it returns 0 or is still in its loop. *)
Theorem main_outcome (E : Env) (fuel : nat) (w : World) :
  match fst (main E fuel w) with
  | Ret status => status = 0 /\ init_succeeds E = true
  | Exit status => status = EXIT_FAILURE /\ init_succeeds E = false
  | Hang => init_succeeds E = true
  end.
Proof.
  destruct (init_succeeds E) eqn:Hok.
  - destruct (main_boots E w Hok) as (wb & _ & Hm). rewrite Hm.
    destruct (frame_loop_outcome E (created_window E) fuel wb) as [H|H];
      destruct (frame_loop E fuel (created_window E) wb) as [[[]|s|] w2];
      cbn in *; try discriminate; auto.
  - destruct (first_failure E) as [f|] eqn:Hf.
    + destruct (main_fails E f fuel w Hf) as (w1 & -> & _). cbn. auto.
    + apply first_failure_none in Hf. congruence.
Qed.

(** X8.  Whenever GLFW was initialised and [main] has come to its end, by
    returning or by exiting, the last library call it made is
    [glfwTerminate]. *)
Theorem main_terminates_glfw (E : Env) (fuel : nat) (w : World) :
  glfwInit_ok E = true ->
  fst (main E fuel w) <> Hang ->
  last (calls (dev (run (main E fuel) w))) = Some GlfwTerminate.
Proof.
  intros H0 Hend. unfold run.
  destruct (init_succeeds E) eqn:Hok.
  - destruct (main_boots E w Hok) as (wb & _ & Hm). rewrite Hm in *.
    destruct (frame_loop_outcome E (created_window E) fuel wb) as [H|H];
      destruct (frame_loop E fuel (created_window E) wb) as [[[]|s|] w2];
      cbn in *; try discriminate; try congruence.
    apply last_snoc.
  - destruct (first_failure E) as [f|] eqn:Hf.
    2:{ apply first_failure_none in Hf. congruence. }
    destruct (main_fails E f fuel w Hf) as (w1 & -> & Hc & _).
    cbn [snd]. rewrite dev_add_calls, dev_log_result. cbn [calls].
    destruct f; cbn [calls_after_failure].
    + unfold first_failure in Hf. rewrite H0 in Hf. cbn in Hf.
      repeat match type of Hf with
      | (if ?b then _ else _) = _ => destruct b
      end; discriminate.
    + apply last_snoc.
    + change [GlfwDestroyWindow (created_window E); GlfwTerminate]
        with ([GlfwDestroyWindow (created_window E)] ++ [GlfwTerminate]).
      rewrite app_assoc. apply last_snoc.
    + change [GlfwDestroyWindow (created_window E); GlfwTerminate]
        with ([GlfwDestroyWindow (created_window E)] ++ [GlfwTerminate]).
      rewrite app_assoc. apply last_snoc.
Qed.

Lemma main_terminates_glfw_desk :
  glfwInit_ok desk = true
  /\ fst (main desk 10 start) <> Hang
  /\ last (calls (dev (run (main desk 10) start))) = Some GlfwTerminate.
Proof.
  assert (H0 : glfwInit_ok desk = true) by reflexivity.
  assert (H1 : fst (main desk 10 start) <> Hang)
    by (vm_compute; discriminate).
  split; [exact H0|]. split; [exact H1|].
  exact (main_terminates_glfw desk 10 start H0 H1).
Defined.

(** ** Files and streams over the whole run *)

Lemma count_ops_app (f : fileop -> bool) (a b : list fileop) :
  count_ops f (a ++ b) = (count_ops f a + count_ops f b)%nat.
Proof. unfold count_ops. now rewrite List.filter_app, List.length_app. Qed.

Lemma count_ops_value_writes (f : fileop -> bool) name args :
  (forall n t, f (FWrite n t) = false) ->
  count_ops f (value_writes name args) = O.
Proof.
  intros Hf. unfold count_ops, value_writes.
  induction args as [|v args IH]; [reflexivity|].
  cbn [flat_map app List.filter]. now rewrite !Hf.
Qed.

#[local] Instance tidy_preorder (E : Env) : PreOrder (tidy E).
Proof.
  split.
  - intros w. exists []. cbn. rewrite !app_nil_r. auto.
  - intros w1 w2 w3 (o1 & F1 & B1 & C1 & D1 & O1) (o2 & F2 & B2 & C2 & D2 & O2).
    exists (o1 ++ o2). rewrite !count_ops_app.
    split; [now rewrite F2, F1, app_assoc|].
    split; [lia|].
    split; [now rewrite C2, C1, repeat_app, app_assoc|].
    split; [congruence|].
    intros H. now rewrite O2, O1.
Qed.

Lemma same_io_tidy (E : Env) (w w' : World) : same_io w w' -> tidy E w w'.
Proof.
  intros H. exists []. rewrite H. cbn. rewrite !app_nil_r. auto.
Qed.

Section Tidy.

Variable E : Env.

Lemma log_to_debug_file_tidy args :
  always (tidy E) (log_to_debug_file E g_logfilename args).
Proof.
  intros w. unfold run. rewrite log_to_debug_file_eq. cbn [snd].
  unfold log_result, tidy, logged, log_failed.
  generalize g_logfilename; intros name.
  destruct (open_ok E (opens (io w))); cbn [io fs fileops cerr cout on_io].
  - exists ([FOpen name ModeApp true] ++ value_writes name args
            ++ [FWrite name endl; FClose name]).
    rewrite !count_ops_app, !count_ops_value_writes by reflexivity.
    cbn [count_ops List.filter is_opened is_close is_failed_open length
         Nat.add repeat].
    rewrite app_nil_r, delete_insert_eq. auto.
  - exists [FOpen name ModeApp false]. cbn. auto.
Qed.

Lemma create_log_file_tidy : always (tidy E) (create_log_file E).
Proof.
  intros w. unfold run. rewrite create_log_file_eq. cbn [snd].
  unfold create_result, tidy, log_created, log_not_created.
  assert (H1 : count_ops is_opened (header_writes E) = O) by reflexivity.
  assert (H2 : count_ops is_close (header_writes E) = O) by reflexivity.
  assert (H3 : count_ops is_failed_open (header_writes E) = O)
    by reflexivity.
  revert H1 H2 H3. generalize (header_writes E). intros hw H1 H2 H3.
  generalize g_logfilename; intros name.
  destruct (open_ok E (opens (io w))); cbn [io fs fileops cerr cout on_io].
  - exists ([FOpen name ModeOut true] ++ hw ++ [FClose name]).
    rewrite !count_ops_app, H1, H2, H3.
    cbn [count_ops List.filter is_opened is_close is_failed_open length
         Nat.add repeat].
    rewrite app_nil_r, delete_insert_eq. auto.
  - exists [FOpen name ModeOut false]. cbn. auto.
Qed.

Lemma debug_print_tidy text : always (tidy E) (debug_print E text).
Proof.
  intros w. unfold run, debug_print.
  destruct (DEBUG E) eqn:Hd; [|now apply same_io_tidy].
  exists []. cbn. rewrite !app_nil_r.
  repeat split; try reflexivity. congruence.
Qed.

End Tidy.

Create HintDb tidy.

#[local] Hint Resolve log_to_debug_file_tidy create_log_file_tidy
  debug_print_tidy : tidy.

(** Split as [always_split] does; library calls that leave files and
    streams alone are run. *)
Ltac tidy_split :=
  repeat first
    [ solve [auto with tidy]
    | apply always_ret; solve [typeclasses eauto]
    | apply always_exit; solve [typeclasses eauto]
    | apply always_bind; [solve [typeclasses eauto] | | intros ?]
    | apply always_for_loop; [solve [typeclasses eauto] | intros ?]
    | apply always_for_each; [solve [typeclasses eauto] | intros ?]
    | match goal with
      | |- always _ (if ?b then _ else _) => destruct b
      end
    | solve [apply (always_weaken same_io);
             [apply same_io_tidy | intros ?; reflexivity]] ].

Section TidyRun.

Variable E : Env.

Lemma deliver_tidy ev : always (tidy E) (deliver E ev).
Proof.
  apply always_deliver; [typeclasses eauto|..]; intros;
    unfold key_cb, mousebutton_cb, mousepos_cb, mousescroll_cb, fbsize_cb,
      glfw_error_cb;
    tidy_split.
Qed.

Lemma frame_loop_tidy fuel p : always (tidy E) (frame_loop E fuel p).
Proof.
  apply always_frame_loop; [typeclasses eauto|..].
  - apply (always_weaken same_io); [apply same_io_tidy | now intros ?].
  - unfold draw. tidy_split.
  - unfold update. apply always_poll; [typeclasses eauto| |apply deliver_tidy].
    apply (always_weaken same_io); [apply same_io_tidy | now intros ?].
Qed.

End TidyRun.

#[local] Hint Resolve deliver_tidy frame_loop_tidy : tidy.

Lemma main_tidy (E : Env) (fuel : nat) : always (tidy E) (main E fuel).
Proof. unfold main. tidy_split. Qed.

(** X10.  In a run of [main], however it ends, the only thing sent to
    [std::cerr] is the message that the log could not be opened, once for
    every failed attempt to open it. *)
Theorem main_stderr (E : Env) (fuel : nat) (w : World) :
  exists ops,
    fileops (io (run (main E fuel) w)) = fileops (io w) ++ ops
    /\ cerr (io (run (main E fuel) w))
       = cerr (io w)
         ++ repeat (open_error g_logfilename) (count_ops is_failed_open ops).
Proof.
  destruct (main_tidy E fuel w) as (ops & Hf & _ & Hc & _).
  exists ops. auto.
Qed.

(** X11.  In a run of [main], however it ends, every stream that was opened has
    been closed: no stream on the log is left open between two logging
    calls or at the end. *)
Theorem main_closes_streams (E : Env) (fuel : nat) (w : World) :
  exists ops,
    fileops (io (run (main E fuel) w)) = fileops (io w) ++ ops
    /\ count_ops is_opened ops = count_ops is_close ops.
Proof.
  destruct (main_tidy E fuel w) as (ops & Hf & Hb & _).
  exists ops. auto.
Qed.

(** X12.  A run of [main] changes no file but the log. *)
Theorem main_other_files (E : Env) (fuel : nat) (w : World) :
  delete g_logfilename (fs (io (run (main E fuel) w)))
  = delete g_logfilename (fs (io w)).
Proof. now destruct (main_tidy E fuel w) as (ops & _ & _ & _ & Hd & _). Qed.

(** X13.  Built without [_DEBUG], the program sends nothing to [std::cout]. *)
Theorem main_stdout (E : Env) (fuel : nat) (w : World) :
  DEBUG E = false ->
  cout (io (run (main E fuel) w)) = cout (io w).
Proof.
  intros H. destruct (main_tidy E fuel w) as (ops & _ & _ & _ & _ & Ho).
  now apply Ho.
Qed.

Lemma main_stdout_desk :
  DEBUG desk = false
  /\ cout (io (run (main desk 10) start)) = cout (io start).
Proof.
  assert (H : DEBUG desk = false) by reflexivity.
  split; [exact H|]. exact (main_stdout desk 10 start H).
Defined.

(** ** The mouse callbacks *)

(** X9.  The three mouse callbacks do nothing to the program's state: they
    return, leave the window, GL, the files and [std::cerr] untouched, and
    without [_DEBUG] write nothing at all, whatever button, action or
    coordinates they are given. *)
Theorem mouse_callbacks_inert (E : Env) (p : GLFWwindow) (w : World) :
  (forall button action mods,
     inert E w (mousebutton_cb E p button action mods w))
  /\ (forall xpos ypos, inert E w (mousepos_cb E p xpos ypos w))
  /\ (forall xoffset yoffset,
        inert E w (mousescroll_cb E p xoffset yoffset w)).
Proof.
  unfold inert, mousebutton_cb, mousepos_cb, mousescroll_cb, debug_print.
  repeat split;
    repeat match goal with
    | |- context [if ?b then _ else _] => destruct b
    end; reflexivity || exact I.
Qed.

(** ** What the log holds *)

(** X14.  When the log opened in [create_log_file], then at the end of [main],
    however it ends, the log still begins with the header written there:
    the time stamp line, the build stamp line and the empty line. *)
Theorem log_keeps_header (E : Env) (fuel : nat) (w : World) :
  open_ok E (opens (io w)) = true ->
  exists suffix,
    file_content g_logfilename (run (main E fuel) w)
    = log_header E +:+ suffix.
Proof.
  intros Hopen.
  destruct (after_bootstrap_grows E fuel w g_logfilename) as [suffix Hs].
  exists suffix. rewrite Hs. f_equal.
  unfold run. rewrite create_log_file_eq. cbn [snd].
  unfold create_result. rewrite Hopen.
  unfold file_content, log_created.
  generalize g_logfilename; intros name. cbn [io fs on_io].
  now rewrite lookup_insert_eq.
Qed.

Lemma log_keeps_header_desk :
  open_ok desk (opens (io start)) = true
  /\ exists suffix,
       file_content g_logfilename (run (main desk 10) start)
       = log_header desk +:+ suffix.
Proof.
  assert (H : open_ok desk (opens (io start)) = true) by reflexivity.
  split; [exact H|]. exact (log_keeps_header desk 10 start H).
Defined.

Section ErrorLog.

Variable E : Env.

Lemma io_log_result_congr name args (w1 w2 : World) :
  io w1 = io w2 ->
  io (log_result E name args w1) = io (log_result E name args w2).
Proof.
  destruct w1 as [d1 s1], w2 as [d2 s2]. cbn [io]. intros ->.
  unfold log_result, logged, log_failed, on_io. cbn [io].
  now destruct (open_ok E (opens s2)).
Qed.

Lemma io_fold_log_congr {A} (line : A -> list printable) (l : list A) :
  forall w1 w2,
    io w1 = io w2 ->
    io (fold_left (fun w x => log_result E g_logfilename (line x) w) l w1)
    = io (fold_left (fun w x => log_result E g_logfilename (line x) w) l w2).
Proof.
  induction l as [|x l IH]; intros w1 w2 H; [exact H|].
  cbn [fold_left]. apply IH. now apply io_log_result_congr.
Qed.

(** The errors GLFW reports while creating the window, with the error
    callback in place. *)
Lemma window_errors_logged (errors : list (Z * string)) :
  forall w,
    handler ErrorSlot (handlers (dev w)) = Some ptr_glfw_error_cb ->
    for_each errors (fun e => deliver E (EvError (fst e) (snd e))) w
    = (Ret tt,
       fold_left (fun w e => log_result E g_logfilename (error_report e) w)
         errors w).
Proof.
  induction errors as [|e errors IH]; intros w Hw; [reflexivity|].
  cbn [for_each fold_left]. rewrite bind_unfold.
  unfold deliver at 1. rewrite Hw.
  unfold glfw_error_cb. rewrite bind_unfold, log_to_debug_file_eq.
  cbn [ret]. cbv beta iota.
  apply IH. now rewrite dev_log_result.
Qed.

End ErrorLog.

(** X15.  With GLFW initialised, what [create_gl_context] sends to the log is:
    the version line; then one line for every error GLFW reports while it
    creates the window, in the order reported, because the error callback
    is installed before the window is created; then, if no window came of
    it, the program's own message.  Errors GLFW might report during its
    other calls are not part of the machine description ([Env] has them for
    window creation and for the polls only), so the statement is about the
    errors of window creation. *)
Theorem create_gl_context_logs_errors (E : Env) (fbwd fbht : Z)
  (title : string) (w : World) :
  glfwInit_ok E = true ->
  io (run (create_gl_context E fbwd fbht title) w)
  = io ((if created_window E =? NULL
         then log_result E g_logfilename (failure_message E WindowFailed)
         else fun w => w)
          (fold_left
             (fun w e => log_result E g_logfilename (error_report e) w)
             (create_window_errors E)
             (log_result E g_logfilename
                [PStr "GLFW Version: "; PStr (glfw_version_string E)] w))).
Proof.
  intros H0. unfold run, create_gl_context.
  exec_prims. rewrite H0. exec_prims. rewrite log_to_debug_file_eq.
  exec_prims. unfold glfwCreateWindow.
  exec_prims.
  rewrite window_errors_logged by (dev_norm; reflexivity).
  destruct (created_window E =? NULL) eqn:H1; exec_prims;
    rewrite ?H1; exec_prims.
  - rewrite log_to_debug_file_eq. cbn [snd failure_message].
    change (io (add_call GlfwTerminate ?x)) with (io x).
    apply io_log_result_congr, io_fold_log_congr, io_log_result_congr.
    reflexivity.
  - cbn [snd].
    match goal with
    | |- io ?x = _ =>
        match x with
        | context [fold_left ?f ?l ?w0] =>
            transitivity (io (fold_left f l w0)); [reflexivity|]
        end
    end.
    apply io_fold_log_congr, io_log_result_congr. reflexivity.
Qed.

(** On [no_window] GLFW reports two errors and returns [NULL]: the log holds
    the version line, the two error lines in the order reported, and the
    failure message. *)
Lemma create_gl_context_logs_errors_no_window :
  glfwInit_ok no_window = true
  /\ created_window no_window = NULL
  /\ length (create_window_errors no_window) = 2%nat
  /\ io (run (create_gl_context no_window 2400 1350 main_title) start)
     = io ((if created_window no_window =? NULL
            then log_result no_window g_logfilename
                   (failure_message no_window WindowFailed)
            else fun w => w)
             (fold_left
                (fun w e =>
                   log_result no_window g_logfilename (error_report e) w)
                (create_window_errors no_window)
                (log_result no_window g_logfilename
                   [PStr "GLFW Version: ";
                    PStr (glfw_version_string no_window)]
                   start)))
  /\ file_content g_logfilename
       (run (create_gl_context no_window 2400 1350 main_title) start)
     = "GLFW Version:  3.3.8 X11 GLX " +:+ endl
       +:+ "GLFW Error id:  65543  | description:  "
       +:+ "GLX: Failed to create context: GLXBadFBConfig " +:+ endl
       +:+ "GLFW Error id:  65543  | description:  "
       +:+ "Requested OpenGL version 4.5, got version 3.3 " +:+ endl
       +:+ "ERROR: GLFW is unable to create an OpenGL context." +:+ endl
       +:+ " " +:+ endl.
Proof.
  assert (H : glfwInit_ok no_window = true) by reflexivity.
  split; [exact H|].
  split; [reflexivity|].
  split; [reflexivity|].
  split; [|vm_compute; reflexivity].
  exact (create_gl_context_logs_errors no_window 2400 1350 main_title start H).
Defined.

(** ** The extension listing at its bounds *)

Lemma opens_after_log (E : Env) name args (w : World) :
  opens (io (log_result E name args w)) = S (opens (io w)).
Proof. unfold log_result. now destruct (open_ok E _). Qed.

Lemma opens_fold_log {A} (E : Env) (g : World -> A -> World) (l : list A) :
  (forall w x, opens (io (g w x)) = S (opens (io w))) ->
  forall w,
    opens (io (fold_left g l w)) = (opens (io w) + length l)%nat.
Proof.
  intros H. induction l as [|x l IH]; intros w; cbn [fold_left length].
  - now rewrite Nat.add_0_r.
  - rewrite IH, H. lia.
Qed.

(** X16.  When the driver reports no extensions, or a negative number of them,
    the listing loop does not run: [query_gl_context] makes the calls of
    the table and the one query for the count, no [glGetStringi], and
    exactly twenty-three logging calls (title, twenty-one rows, rule). *)
Theorem query_gl_context_no_extensions (E : Env) (w : World) :
  gl_integerv E GL_NUM_EXTENSIONS 0 <= 0 ->
  calls (dev (run (query_gl_context E) w))
  = calls (dev w)
    ++ imap (fun i entry => query_call (form_at i) (fst entry)) params
    ++ [GlGetIntegerv GL_NUM_EXTENSIONS]
  /\ opens (io (run (query_gl_context E) w)) = (opens (io w) + 23)%nat.
Proof.
  intros Hn.
  assert (H0 : extension_count E = O).
  { unfold extension_count.
    destruct (gl_integerv E GL_NUM_EXTENSIONS 0); try reflexivity. lia. }
  split.
  - rewrite dev_query_gl_context, dev_add_calls. cbn [calls].
    unfold query_calls. now rewrite H0.
  - unfold run. rewrite query_gl_context_eq, H0. cbn [snd].
    change (seq 0 0) with (@nil nat). cbn [fold_left].
    change (opens (io (add_call ?c ?x))) with (opens (io x)).
    rewrite opens_after_log.
    rewrite (opens_fold_log E)
      by (intros; unfold query_row; now rewrite opens_after_log).
    rewrite opens_after_log. cbn [length seq]. lia.
Qed.

Lemma query_gl_context_no_extensions_negative :
  gl_integerv no_extensions GL_NUM_EXTENSIONS 0 <= 0
  /\ calls (dev (run (query_gl_context no_extensions) start))
     = calls (dev start)
       ++ imap (fun i entry => query_call (form_at i) (fst entry)) params
       ++ [GlGetIntegerv GL_NUM_EXTENSIONS]
  /\ opens (io (run (query_gl_context no_extensions) start))
     = (opens (io start) + 23)%nat.
Proof.
  assert (H : gl_integerv no_extensions GL_NUM_EXTENSIONS 0 <= 0)
    by (cbn; lia).
  split; [exact H|].
  exact (query_gl_context_no_extensions no_extensions start H).
Defined.

(** ** A run without a closing event *)

(** X6.  When the bootstrap goes through and none of the first [fuel] polls
    brings a press of ESC or a close request, [main] is still in its loop
    after [fuel] passes: it has neither returned nor exited, and has
    cleared to green and polled once in each pass.  So other keys, mouse
    events, resizes and GLFW errors never end the program. *)
Theorem main_runs_without_closing_event (E : Env) (w : World) (fuel : nat) :
  init_succeeds E = true ->
  closing_within E (polls (dev w)) fuel = false ->
  fst (main E fuel w) = Hang
  /\ polls (dev (run (main E fuel) w)) = (polls (dev w) + fuel)%nat
  /\ cleared (dev (run (main E fuel) w))
     = cleared (dev w) ++ repeat green fuel.
Proof.
  intros Hok Hquiet.
  destruct (main_boots E w Hok) as (wb & Hd & Hm).
  assert (Hw : wired wb) by (apply (booted_wired E w); now rewrite Hd).
  assert (Hloop : frame_loop E fuel (created_window E) wb
                  = (Hang, frames E (created_window E) fuel wb)).
  { apply frame_loop_runs_on. intros j Hj.
    destruct (frames_wired E (created_window E) j wb Hw)
      as (_ & _ & -> & _).
    rewrite Hd. cbn [should_close polls orb].
    apply (closing_within_before E _ fuel); [lia | exact Hquiet]. }
  unfold run. rewrite Hm, Hloop. cbn [finish fst snd].
  destruct (frames_wired E (created_window E) fuel wb Hw)
    as (_ & -> & _ & _ & ->).
  rewrite Hd. cbn. auto.
Qed.

Lemma main_runs_without_closing_event_desk :
  init_succeeds desk = true
  /\ closing_within desk (polls (dev start)) 2 = false
  /\ fst (main desk 2 start) = Hang
  /\ polls (dev (run (main desk 2) start)) = (polls (dev start) + 2)%nat
  /\ cleared (dev (run (main desk 2) start))
     = cleared (dev start) ++ repeat green 2.
Proof.
  assert (H0 : init_succeeds desk = true) by reflexivity.
  assert (H1 : closing_within desk (polls (dev start)) 2 = false)
    by reflexivity.
  split; [exact H0|]. split; [exact H1|].
  exact (main_runs_without_closing_event desk start 2 H0 H1).
Defined.
